(** * BLE advertisement decoder: iBeacon and Eddystone frame parsers

    Shallow embedding of the decoding functions of [ble_scanner.py] and
    [ble_scanner_to_csv.py] (class [BeaconScanner]: [parse_ibeacon],
    [parse_eddystone], [parse_manufacturer_data]) and the properties of the
    decoder that the specification states about them.

    Layout of the development:
    - [Py]: the Python built-ins the parsers rely on ([bytes] slicing and
      indexing, [bytes.hex], [bytes.fromhex], [hex], [struct.unpack],
      format specs, exceptions, dictionaries);
    - [Scanner]: the three functions of [ble_scanner.py];
    - [ScannerCsv]: the three functions of [ble_scanner_to_csv.py];
    - [Layout]: the frame layouts as the specification words them (byte
      offsets, endianness, signedness), independent of the code paths;
    - the contracts the specification states, and the dispatcher loop the
      two scanners share;
    - lemmas on the built-ins, the parsers and the dispatcher, and the
      properties C1 to C10. *)

From Stdlib Require Import ZArith NArith List String Ascii Strings.Byte Lia.
From Stdlib Require Import Floats.PrimFloat Numbers.Cyclic.Int63.Uint63.
From stdpp Require Import gmap strings list fin_maps.

(** ** Python built-ins *)

Module Py.

(** A Python [bytes] object: an immutable sequence of integers in 0..255. *)
Abbreviation bytes := (list byte).

(** The integer a byte denotes (what indexing a [bytes] object yields). *)
Definition byte_val (b : byte) : Z := Z.of_N (Byte.to_N b).

(** *** Exceptions *)

(** The exceptions the parsing code can raise; both are subclasses of
    Python's [Exception]. *)
Inductive exn : Type :=
  | IndexError    (* index out of range *)
  | StructError.  (* struct.error: buffer of the wrong size *)

(** The outcome of evaluating a Python expression or function body. *)
Inductive outcome (A : Type) : Type :=
  | Return (a : A)
  | Raise (e : exn).
Arguments Return {A} a.
Arguments Raise {A} e.

#[global] Instance outcome_ret : MRet outcome := fun A a => Return a.
#[global] Instance outcome_bind : MBind outcome := fun A B k m =>
  match m with
  | Return a => k a
  | Raise e => Raise e
  end.

(** [try: body except Exception: handler]. Every member of [exn] is an
    [Exception], so the handler catches all of them. *)
Definition try_except {A} (body : outcome A) (handler : exn → outcome A)
  : outcome A :=
  match body with
  | Return a => Return a
  | Raise e => handler e
  end.

(** *** Indexing and slicing of [bytes] *)

(** [data[i]] for [i >= 0]: the integer at index [i], [IndexError] out of
    range. *)
Definition getitem (data : bytes) (i : nat) : outcome Z :=
  match data !! i with
  | Some b => Return (byte_val b)
  | None => Raise IndexError
  end.

(** [data[a:b]] for [0 <= a <= b]: bounds are clamped, never raises. *)
Definition slice (data : bytes) (a b : nat) : bytes :=
  take (b - a) (drop a data).

(** [data[a:]] for [0 <= a]. *)
Definition slice_from (data : bytes) (a : nat) : bytes := drop a data.

(** *** Hexadecimal text *)

Definition lower_hexdigits : string := "0123456789abcdef".
Definition upper_hexdigits : string := "0123456789ABCDEF".

Definition hexdigit (table : string) (n : N) : ascii :=
  default "0"%char (String.get (N.to_nat n) table).

(** Two lowercase hex digits of one byte. *)
Definition hex_of_byte (b : byte) : string :=
  let n := Byte.to_N b in
  String (hexdigit lower_hexdigits (n / 16)%N)
    (String (hexdigit lower_hexdigits (n mod 16)%N) EmptyString).

(** [data.hex()]: two lowercase hex digits per byte, no separator. *)
Fixpoint bytes_hex (data : bytes) : string :=
  match data with
  | [] => EmptyString
  | b :: rest => hex_of_byte b +:+ bytes_hex rest
  end.

(** Value of a hex digit, either case ([None]: not a hex digit). *)
Definition unhexdigit (c : ascii) : option N :=
  let n := N_of_ascii c in
  if ((48 <=? n) && (n <=? 57))%N then Some (n - 48)%N
  else if ((97 <=? n) && (n <=? 102))%N then Some (n - 87)%N
  else if ((65 <=? n) && (n <=? 70))%N then Some (n - 55)%N
  else None.

(** ASCII whitespace, which [bytes.fromhex] skips between bytes. *)
Definition is_ascii_space (c : ascii) : bool :=
  let n := N_of_ascii c in
  ((n =? 32) || ((9 <=? n) && (n <=? 13)))%N.

(** [bytes.fromhex(s)]: pairs of hex digits, whitespace allowed between
    pairs; [None] where Python raises [ValueError]. *)
Fixpoint bytes_fromhex (s : string) : option bytes :=
  match s with
  | EmptyString => Some []
  | String c rest =>
      if is_ascii_space c then bytes_fromhex rest
      else
        match rest with
        | EmptyString => None
        | String d rest' =>
            match unhexdigit c, unhexdigit d, bytes_fromhex rest' with
            | Some h, Some l, Some tl =>
                match Byte.of_N (16 * h + l) with
                | Some b => Some (b :: tl)
                | None => None
                end
            | _, _, _ => None
            end
        end
  end.

(** Digits of a non-negative integer, most significant first, from the
    Standard Library's hexadecimal numerals. *)
Fixpoint hex_uint_string (table : string) (u : Hexadecimal.uint) : string :=
  let d n rest := String (hexdigit table n) (hex_uint_string table rest) in
  match u with
  | Hexadecimal.Nil => EmptyString
  | Hexadecimal.D0 r => d 0%N r | Hexadecimal.D1 r => d 1%N r
  | Hexadecimal.D2 r => d 2%N r | Hexadecimal.D3 r => d 3%N r
  | Hexadecimal.D4 r => d 4%N r | Hexadecimal.D5 r => d 5%N r
  | Hexadecimal.D6 r => d 6%N r | Hexadecimal.D7 r => d 7%N r
  | Hexadecimal.D8 r => d 8%N r | Hexadecimal.D9 r => d 9%N r
  | Hexadecimal.Da r => d 10%N r | Hexadecimal.Db r => d 11%N r
  | Hexadecimal.Dc r => d 12%N r | Hexadecimal.Dd r => d 13%N r
  | Hexadecimal.De r => d 14%N r | Hexadecimal.Df r => d 15%N r
  end.

(** [hex(n)] for [n >= 0]: prefix [0x], lowercase, no padding. *)
Definition py_hex (n : Z) : string :=
  "0x" +:+ hex_uint_string lower_hexdigits (N.to_hex_uint (Z.to_N n)).

Fixpoint string_repeat (c : ascii) (n : nat) : string :=
  match n with
  | O => EmptyString
  | S n' => String c (string_repeat c n')
  end.

(** [f"{n:04X}"] for [n >= 0]: uppercase hex, zero-padded to width 4. *)
Definition format_04X (n : N) : string :=
  let digits := hex_uint_string upper_hexdigits (N.to_hex_uint n) in
  string_repeat "0" (4 - String.length digits) +:+ digits.

(** [sep.join(parts)]. *)
Fixpoint str_join (sep : string) (parts : list string) : string :=
  match parts with
  | [] => EmptyString
  | [p] => p
  | p :: rest => p +:+ sep +:+ str_join sep rest
  end.

(** *** [struct.unpack] *)

(** The format strings the scanners use. *)
Inductive fmt : Type :=
  | fmt_b      (* "b":  signed char *)
  | fmt_BE_H   (* ">H": big-endian unsigned short *)
  | fmt_BE_h   (* ">h": big-endian signed short *)
  | fmt_BE_I.  (* ">I": big-endian unsigned int *)

Definition calcsize (f : fmt) : nat :=
  match f with
  | fmt_b => 1
  | fmt_BE_H | fmt_BE_h => 2
  | fmt_BE_I => 4
  end.

(** Big-endian unsigned value of a byte string. *)
Definition be_unsigned (buf : bytes) : Z :=
  fold_left (fun acc b => (acc * 256 + byte_val b)%Z) buf 0%Z.

(** Two's-complement reading of an unsigned [bits]-bit value. *)
Definition to_signed (bits : Z) (u : Z) : Z :=
  if (u <? 2 ^ (bits - 1))%Z then u else (u - 2 ^ bits)%Z.

Definition is_signed (f : fmt) : bool :=
  match f with
  | fmt_b | fmt_BE_h => true
  | fmt_BE_H | fmt_BE_I => false
  end.

(** [struct.unpack(f, buf)[0]]: [struct.error] unless [buf] has exactly
    [calcsize f] bytes. *)
Definition struct_unpack0 (f : fmt) (buf : bytes) : outcome Z :=
  if Nat.eqb (length buf) (calcsize f) then
    let u := be_unsigned buf in
    Return (if is_signed f then to_signed (8 * Z.of_nat (calcsize f)) u else u)
  else Raise StructError.

(** *** Numbers *)

(** [float(n)] for an integer that fits a machine word. *)
Definition float_of_int (n : Z) : float :=
  match n with
  | Z0 => PrimFloat.zero
  | Zpos _ => PrimFloat.of_uint63 (Uint63.of_Z n)
  | Zneg _ => PrimFloat.opp (PrimFloat.of_uint63 (Uint63.of_Z (- n)))
  end.

(** [n / x] with [n] an [int] and [x] a [float] (true division). *)
Definition int_truediv (n : Z) (x : float) : float :=
  PrimFloat.div (float_of_int n) x.

(** *** Dictionaries with string keys *)

Inductive value : Type :=
  | VStr (s : string)
  | VInt (n : Z)
  | VFloat (x : float).

Abbreviation dict := (gmap string value).

(** A dictionary display [{k1: v1, ..., kn: vn}]: later items overwrite
    earlier ones with the same key. *)
Definition dict_of (items : list (string * value)) : dict :=
  fold_left (fun d kv => <[kv.1 := kv.2]> d) items ∅.

(** [d.update(other)]: the entries of [other] win. *)
Definition dict_update (d other : dict) : dict := other ∪ d.

(** Truth value of [None] or a dictionary: a non-empty dictionary. *)
Definition truthy (o : option dict) : bool :=
  match o with
  | None => false
  | Some d => negb (Nat.eqb (size d) 0)
  end.

End Py.

Import Py.

(** ** [ble_scanner.py] *)

Module Scanner.

(** [self.APPLE_COMPANY_ID]. *)
Definition APPLE_COMPANY_ID : N := 0x004C.

(** The [try] body of [parse_ibeacon]. *)
Definition parse_ibeacon_body (mfg_data : bytes) : outcome (option dict) :=
  let ibeacon_prefix := slice mfg_data 0 2 in
  if (length mfg_data <? 23)%nat then mret None
  else
    let uuid_bytes := slice mfg_data 2 18 in
    major ← struct_unpack0 fmt_BE_H (slice mfg_data 18 20);
    minor ← struct_unpack0 fmt_BE_H (slice mfg_data 20 22);
    tx_power ← struct_unpack0 fmt_b (slice mfg_data 22 23);
    mret (Some (dict_of [
      ("type", VStr "iBeacon");
      ("uuid", VStr (str_join "-" [
         bytes_hex (slice uuid_bytes 0 4);
         bytes_hex (slice uuid_bytes 4 6);
         bytes_hex (slice uuid_bytes 6 8);
         bytes_hex (slice uuid_bytes 8 10);
         bytes_hex (slice uuid_bytes 10 16)]));
      ("major", VInt major);
      ("minor", VInt minor);
      ("tx_power", VInt tx_power);
      ("raw_data", VStr (bytes_hex mfg_data))])).

Definition parse_ibeacon (mfg_data : bytes) : outcome (option dict) :=
  try_except (parse_ibeacon_body mfg_data) (fun _ => mret None).

(** The [try] body of [parse_eddystone]. *)
Definition parse_eddystone_body (service_data : bytes)
  : outcome (option dict) :=
  frame_type ← getitem service_data 0;
  let result := dict_of [
    ("type", VStr "Eddystone");
    ("frame_type", VStr (py_hex frame_type));
    ("raw_data", VStr (bytes_hex service_data))] in
  if (frame_type =? 0x00)%Z then
    tx_power ← struct_unpack0 fmt_b (slice service_data 1 2);
    mret (Some (dict_update result (dict_of [
      ("frame_type_name", VStr "UID");
      ("tx_power", VInt tx_power);
      ("namespace", VStr (bytes_hex (slice service_data 2 12)));
      ("instance", VStr (bytes_hex (slice service_data 12 18)))])))
  else if (frame_type =? 0x10)%Z then
    tx_power ← struct_unpack0 fmt_b (slice service_data 1 2);
    url_scheme ← getitem service_data 2;
    mret (Some (dict_update result (dict_of [
      ("frame_type_name", VStr "URL");
      ("tx_power", VInt tx_power);
      ("url_scheme", VInt url_scheme);
      ("encoded_url", VStr (bytes_hex (slice_from service_data 3)))])))
  else if (frame_type =? 0x20)%Z then
    version ← getitem service_data 1;
    battery_voltage ← struct_unpack0 fmt_BE_H (slice service_data 2 4);
    temperature ← struct_unpack0 fmt_BE_h (slice service_data 4 6);
    advertising_count ← struct_unpack0 fmt_BE_I (slice service_data 6 10);
    seconds_since_boot ← struct_unpack0 fmt_BE_I (slice service_data 10 14);
    mret (Some (dict_update result (dict_of [
      ("frame_type_name", VStr "TLM");
      ("version", VInt version);
      ("battery_voltage", VInt battery_voltage);
      ("temperature", VFloat (int_truediv temperature 256%float));
      ("advertising_count", VInt advertising_count);
      ("seconds_since_boot", VInt seconds_since_boot)])))
  else mret (Some result).

Definition parse_eddystone (service_data : bytes) : outcome (option dict) :=
  try_except (parse_eddystone_body service_data) (fun _ => mret None).

(** The loop of [parse_manufacturer_data] over [mfg_data.items()], the
    entries of the mapping in iteration order; [result] is the dictionary
    built so far. *)
Fixpoint parse_manufacturer_data_loop (items : list (N * bytes))
    (result : dict) : outcome dict :=
  match items with
  | [] => mret result
  | (company_id, data) :: rest =>
      let result := <["company_id" := VStr ("0x" +:+ format_04X company_id)]> result in
      if (company_id =? APPLE_COMPANY_ID)%N then
        ibeacon_data ← parse_ibeacon data;
        if truthy ibeacon_data then
          parse_manufacturer_data_loop rest
            (dict_update result (default ∅ ibeacon_data))
        else parse_manufacturer_data_loop rest result
      else
        parse_manufacturer_data_loop rest
          (<["raw_data" := VStr (bytes_hex data)]> result)
  end.

(** [parse_manufacturer_data]; the argument lists [mfg_data.items()]. *)
Definition parse_manufacturer_data (mfg_data : list (N * bytes))
  : outcome dict :=
  parse_manufacturer_data_loop mfg_data ∅.

End Scanner.

(** ** [ble_scanner_to_csv.py] *)

Module ScannerCsv.

Definition APPLE_COMPANY_ID : N := 0x004C.

Definition parse_ibeacon_body (mfg_data : bytes) : outcome (option dict) :=
  if (length mfg_data <? 23)%nat then mret None
  else
    let uuid_bytes := slice mfg_data 2 18 in
    major ← struct_unpack0 fmt_BE_H (slice mfg_data 18 20);
    minor ← struct_unpack0 fmt_BE_H (slice mfg_data 20 22);
    tx_power ← struct_unpack0 fmt_b (slice mfg_data 22 23);
    mret (Some (dict_of [
      ("beacon_type", VStr "iBeacon");
      ("uuid", VStr (str_join "-" [
         bytes_hex (slice uuid_bytes 0 4);
         bytes_hex (slice uuid_bytes 4 6);
         bytes_hex (slice uuid_bytes 6 8);
         bytes_hex (slice uuid_bytes 8 10);
         bytes_hex (slice uuid_bytes 10 16)]));
      ("major", VInt major);
      ("minor", VInt minor);
      ("tx_power", VInt tx_power);
      ("raw_data", VStr (bytes_hex mfg_data))])).

Definition parse_ibeacon (mfg_data : bytes) : outcome (option dict) :=
  try_except (parse_ibeacon_body mfg_data) (fun _ => mret None).

Definition parse_eddystone_body (service_data : bytes)
  : outcome (option dict) :=
  frame_type ← getitem service_data 0;
  let result := dict_of [
    ("beacon_type", VStr "Eddystone");
    ("frame_type", VStr (py_hex frame_type));
    ("raw_data", VStr (bytes_hex service_data))] in
  if (frame_type =? 0x00)%Z then
    tx_power ← struct_unpack0 fmt_b (slice service_data 1 2);
    mret (Some (dict_update result (dict_of [
      ("frame_type", VStr "UID");
      ("tx_power", VInt tx_power);
      ("namespace", VStr (bytes_hex (slice service_data 2 12)));
      ("instance", VStr (bytes_hex (slice service_data 12 18)))])))
  else if (frame_type =? 0x10)%Z then
    tx_power ← struct_unpack0 fmt_b (slice service_data 1 2);
    mret (Some (dict_update result (dict_of [
      ("frame_type", VStr "URL");
      ("tx_power", VInt tx_power)])))
  else if (frame_type =? 0x20)%Z then
    battery_voltage ← struct_unpack0 fmt_BE_H (slice service_data 2 4);
    temperature ← struct_unpack0 fmt_BE_h (slice service_data 4 6);
    mret (Some (dict_update result (dict_of [
      ("frame_type", VStr "TLM");
      ("battery_voltage", VInt battery_voltage);
      ("temperature", VFloat (int_truediv temperature 256%float))])))
  else mret (Some result).

Definition parse_eddystone (service_data : bytes) : outcome (option dict) :=
  try_except (parse_eddystone_body service_data) (fun _ => mret None).

Fixpoint parse_manufacturer_data_loop (items : list (N * bytes))
    (result : dict) : outcome dict :=
  match items with
  | [] => mret result
  | (company_id, data) :: rest =>
      let result := <["company_id" := VStr ("0x" +:+ format_04X company_id)]> result in
      if (company_id =? APPLE_COMPANY_ID)%N then
        ibeacon_data ← parse_ibeacon data;
        if truthy ibeacon_data then
          parse_manufacturer_data_loop rest
            (dict_update result (default ∅ ibeacon_data))
        else parse_manufacturer_data_loop rest result
      else
        parse_manufacturer_data_loop rest
          (<["raw_data" := VStr (bytes_hex data)]> result)
  end.

Definition parse_manufacturer_data (mfg_data : list (N * bytes))
  : outcome dict :=
  parse_manufacturer_data_loop mfg_data ∅.

End ScannerCsv.


(** ** Frame layouts, as the specification words them *)

Module Layout.

(** The integer at offset [i] of the buffer (0 past the end). *)
Definition byte_at (data : bytes) (i : nat) : Z :=
  default 0%Z (byte_val <$> data !! i).

(** Unsigned big-endian 16-bit integer at offsets [i], [i+1]. *)
Definition u16_be_at (data : bytes) (i : nat) : Z :=
  (byte_at data i * 256 + byte_at data (i + 1))%Z.

(** Unsigned big-endian 32-bit integer at offsets [i] .. [i+3]. *)
Definition u32_be_at (data : bytes) (i : nat) : Z :=
  (byte_at data i * 16777216 + byte_at data (i + 1) * 65536
   + byte_at data (i + 2) * 256 + byte_at data (i + 3))%Z.

(** Signed 8-bit integer at offset [i]. *)
Definition s8_at (data : bytes) (i : nat) : Z :=
  let u := byte_at data i in
  if (u <? 128)%Z then u else (u - 256)%Z.

(** Signed big-endian 16-bit integer at offsets [i], [i+1]. *)
Definition s16_be_at (data : bytes) (i : nat) : Z :=
  let u := u16_be_at data i in
  if (u <? 32768)%Z then u else (u - 65536)%Z.

(** Lowercase hex of the [n] bytes starting at offset [i]. *)
Definition hex_at (data : bytes) (i n : nat) : string :=
  bytes_hex (take n (drop i data)).

(** Hyphens re-inserted into 32 hex digits: groups of 8, 4, 4, 4 and 12. *)
Definition hyphenate_8_4_4_4_12 (h : string) : string :=
  substring 0 8 h +:+ "-" +:+ substring 8 4 h +:+ "-" +:+
  substring 12 4 h +:+ "-" +:+ substring 16 4 h +:+ "-" +:+
  substring 20 12 h.

(** Every character of [s] is a lowercase hex digit. *)
Fixpoint all_lower_hex (s : string) : bool :=
  match s with
  | EmptyString => true
  | String c rest =>
      let n := N_of_ascii c in
      (((48 <=? n) && (n <=? 57)) || ((97 <=? n) && (n <=? 102)))%N
      && all_lower_hex rest
  end.

End Layout.

Import Layout.

(** ** Test vectors of the specification *)

(** The byte with value [n] (for [n < 256]). *)
Definition byte_of (n : N) : byte := default "000"%byte (Byte.of_N n).

(** The known-good iBeacon payload: prefix 02 15, the UUID
    e2c56db5-dffb-48d2-b060-d0f5a71096e0, major 1, minor 2, power 0xC5. *)
Definition ibeacon_sample : bytes :=
  byte_of <$> [0x02; 0x15;
    0xE2; 0xC5; 0x6D; 0xB5; 0xDF; 0xFB; 0x48; 0xD2;
    0xB0; 0x60; 0xD0; 0xF5; 0xA7; 0x10; 0x96; 0xE0;
    0x00; 0x01; 0x00; 0x02; 0xC5]%N.

(** The TLM frame 20 00 0BE4 0C98 00000005 00000578. *)
Definition tlm_sample : bytes :=
  byte_of <$> [0x20; 0x00; 0x0B; 0xE4; 0x0C; 0x98;
    0x00; 0x00; 0x00; 0x05; 0x00; 0x00; 0x05; 0x78]%N.

(** A UID frame one byte short of the 18 the layout needs. *)
Definition uid_short_sample : bytes :=
  byte_of <$> [0x00; 0xEE; 1; 2; 3; 4; 5; 6; 7; 8; 9; 10;
    0xA1; 0xA2; 0xA3; 0xA4; 0xA5]%N.

(** A URL frame: power 0xEE, scheme 0xFF (outside the prefix table), and
    three bytes of encoded URL. *)
Definition url_sample : bytes :=
  byte_of <$> [0x10; 0xEE; 0xFF; 0x61; 0x62; 0x07]%N.

(** The two-entry manufacturer mapping of the specification, in insertion
    order. *)
Definition two_entries : list (N * bytes) :=
  [(0x004C%N, ibeacon_sample); (0x0999%N, byte_of <$> [1; 2; 3]%N)].

(** An Apple entry too short for an iBeacon. *)
Definition short_apple : list (N * bytes) :=
  [(0x004C%N, byte_of <$> [0x10; 0x05; 0x0B]%N)].

(** ** What the specification promises *)

(** Reading a dictionary display: the last item with the key. *)
Fixpoint items_get (k : string) (items : list (string * value))
    (acc : option value) : option value :=
  match items with
  | [] => acc
  | (k', v) :: rest =>
      items_get k rest (if String.eqb k' k then Some v else acc)
  end.

(** The iBeacon fields of a record decoded from [mfg_data]. *)
Definition ibeacon_layout (mfg_data : bytes) (r : dict) : Prop :=
  r !! "uuid" = Some (VStr (hyphenate_8_4_4_4_12 (hex_at mfg_data 2 16))) ∧
  r !! "major" = Some (VInt (u16_be_at mfg_data 18)) ∧
  r !! "minor" = Some (VInt (u16_be_at mfg_data 20)) ∧
  r !! "tx_power" = Some (VInt (s8_at mfg_data 22)).

(** No iBeacon field is set. *)
Definition no_ibeacon_fields (r : dict) : Prop :=
  r !! "uuid" = None ∧ r !! "major" = None ∧ r !! "minor" = None ∧
  r !! "tx_power" = None.

(** The Eddystone UID fields. *)
Definition uid_layout (data : bytes) (r : dict) : Prop :=
  r !! "tx_power" = Some (VInt (s8_at data 1)) ∧
  r !! "namespace" = Some (VStr (hex_at data 2 10)) ∧
  r !! "instance" = Some (VStr (hex_at data 12 6)).

(** The Eddystone URL fields. *)
Definition url_layout (data : bytes) (r : dict) : Prop :=
  r !! "tx_power" = Some (VInt (s8_at data 1)) ∧
  r !! "url_scheme" = Some (VInt (byte_at data 2)) ∧
  r !! "encoded_url" = Some (VStr (bytes_hex (drop 3 data))).

(** The Eddystone TLM fields. *)
Definition tlm_layout (data : bytes) (r : dict) : Prop :=
  r !! "version" = Some (VInt (byte_at data 1)) ∧
  r !! "battery_voltage" = Some (VInt (u16_be_at data 2)) ∧
  r !! "temperature"
    = Some (VFloat (int_truediv (s16_be_at data 4) 256%float)) ∧
  r !! "advertising_count" = Some (VInt (u32_be_at data 6)) ∧
  r !! "seconds_since_boot" = Some (VInt (u32_be_at data 10)).

(** The TLM contract for one Eddystone parser and one buffer. *)
Definition tlm_frame_contract (parse : bytes → outcome (option dict))
    (data : bytes) : Prop :=
  byte_at data 0 = 0x20%Z → 14 ≤ length data →
  ∃ r, parse data = Return (Some r) ∧ tlm_layout data r.

(** The URL contract for one Eddystone parser and one buffer. *)
Definition url_frame_contract (parse : bytes → outcome (option dict))
    (data : bytes) : Prop :=
  byte_at data 0 = 0x10%Z →
  (3 ≤ length data → ∃ r, parse data = Return (Some r) ∧ url_layout data r) ∧
  (length data < 3 → parse data = Return None).

(** The raw-hex fallback for a short Apple entry, for one dispatcher and
    one mapping. *)
Definition short_apple_contract (dispatch : list (N * bytes) → outcome dict)
    (mfg_data : list (N * bytes)) : Prop :=
  ∀ data, (0x004C%N, data) ∈ mfg_data → length data < 23 →
  ∃ r, dispatch mfg_data = Return r
       ∧ is_Some (r !! "company_id")
       ∧ no_ibeacon_fields r
       ∧ r !! "raw_data" = Some (VStr (bytes_hex data)).

(** The record of a mapping equals the record of its last entry alone. *)
Definition reflects_only_last (dispatch : list (N * bytes) → outcome dict)
    (mfg_data : list (N * bytes)) : Prop :=
  ∀ e r r_last, last mfg_data = Some e →
  dispatch mfg_data = Return r → dispatch [e] = Return r_last →
  ∀ k, r !! k = r_last !! k.

(** The [raw_data] left by the non-Apple entries of a mapping: the hex of
    the last such entry's payload, if any. *)
Definition last_other_raw (mfg_data : list (N * bytes)) : option value :=
  fold_left (fun acc e =>
    if (e.1 =? 0x004C)%N then acc else Some (VStr (bytes_hex e.2)))
    mfg_data None.

(** ** The dispatcher loop shared by the two scanners *)

(** The loop of [parse_manufacturer_data] is the same text in both files;
    here it is over the scanner's Apple identifier and iBeacon parser. *)
Fixpoint dispatch_loop (apple : N) (parse : bytes → outcome (option dict))
    (items : list (N * bytes)) (result : dict) : outcome dict :=
  match items with
  | [] => mret result
  | (company_id, data) :: rest =>
      let result := <["company_id" := VStr ("0x" +:+ format_04X company_id)]> result in
      if (company_id =? apple)%N then
        ibeacon_data ← parse data;
        if truthy ibeacon_data then
          dispatch_loop apple parse rest
            (dict_update result (default ∅ ibeacon_data))
        else dispatch_loop apple parse rest result
      else
        dispatch_loop apple parse rest
          (<["raw_data" := VStr (bytes_hex data)]> result)
  end.

(** One pass of the loop body when the parser returns: the dictionary
    after the entry. *)
Definition dispatch_step (apple : N) (parse : bytes → outcome (option dict))
    (result : dict) (e : N * bytes) : dict :=
  let result := <["company_id" := VStr ("0x" +:+ format_04X e.1)]> result in
  if (e.1 =? apple)%N then
    match parse e.2 with
    | Return ibeacon_data =>
        if truthy ibeacon_data
        then dict_update result (default ∅ ibeacon_data)
        else result
    | Raise _ => result
    end
  else <["raw_data" := VStr (bytes_hex e.2)]> result.

(** ** The rest of [ble_scanner_to_csv.py]: the CSV file and the callback *)

Module CsvLog.

(** A value held by [beacon_data]: a value of a parser record, or the
    list of service UUIDs. *)
Inductive pyval : Type :=
  | PVal (v : value)
  | PList (l : list string).

(** The contents of the CSV file: the rows handed to [writer.writerow],
    oldest first. What the functions print on the console is not part of
    the model. *)
Abbreviation csv_file := (list (list pyval)).

(** The [headers] of [create_csv_file]. *)
Definition headers : list string :=
  [ "timestamp";
    "device_address";
    "device_name";
    "rssi";
    "beacon_type";
    "company_id";
    "uuid";
    "major";
    "minor";
    "tx_power";
    "service_uuids";
    "frame_type";
    "raw_data" ].

(** [create_csv_file]: the file is opened for writing and gets the header
    row. *)
Definition create_csv_file : csv_file :=
  [ (fun h => PVal (VStr h)) <$> headers ].

(** [data.get(key, '')]. *)
Definition get_or_empty (data : gmap string pyval) (key : string) : pyval :=
  default (PVal (VStr "")) (data !! key).

(** The characters of a string, as Python iterates over it. *)
Fixpoint str_chars (s : string) : list string :=
  match s with
  | EmptyString => []
  | String c rest => String c EmptyString :: str_chars rest
  end.

(** [sep.join(x)]: the items of a list of strings, or the characters of a
    string; [None] where Python raises [TypeError] (a number is not
    iterable). *)
Definition join_pyval (sep : string) (x : pyval) : option string :=
  match x with
  | PList l => Some (str_join sep l)
  | PVal (VStr s) => Some (str_join sep (str_chars s))
  | PVal (VInt _) | PVal (VFloat _) => None
  end.

(** [write_to_csv]: the row is built, then appended to the file; when
    building it raises, the handler prints a message and nothing is
    written. *)
Definition write_to_csv (file : csv_file) (data : gmap string pyval)
  : csv_file :=
  match join_pyval "," (default (PList []) (data !! "service_uuids")) with
  | Some joined =>
      file ++ [[
        get_or_empty data "timestamp";
        get_or_empty data "device_address";
        get_or_empty data "device_name";
        get_or_empty data "rssi";
        get_or_empty data "beacon_type";
        get_or_empty data "company_id";
        get_or_empty data "uuid";
        get_or_empty data "major";
        get_or_empty data "minor";
        get_or_empty data "tx_power";
        PVal (VStr joined);
        get_or_empty data "frame_type";
        get_or_empty data "raw_data" ]]
  | None => file
  end.

(** [s.lower()] on ASCII text (service UUIDs are ASCII). *)
Definition ascii_lower (c : ascii) : ascii :=
  let n := N_of_ascii c in
  if ((65 <=? n) && (n <=? 90))%N then ascii_of_N (n + 32) else c.

Fixpoint str_lower (s : string) : string :=
  match s with
  | EmptyString => EmptyString
  | String c rest => String (ascii_lower c) (str_lower rest)
  end.

(** [needle in hay] for strings. *)
Fixpoint str_contains (needle hay : string) : bool :=
  String.prefix needle hay ||
  match hay with
  | EmptyString => false
  | String _ rest => str_contains needle rest
  end.

(** ["feaa" in str(uuid).lower()]. *)
Definition is_eddystone_uuid (uuid : string) : bool :=
  str_contains "feaa" (str_lower uuid).

(** The attributes of [device] the callback reads. *)
Record device : Type := {
  address : string;
  name : option string;
  rssi : Z
}.

(** The attributes of [advertisement_data] the callback reads. *)
Record advertisement_data : Type := {
  manufacturer_data : list (N * bytes);
  service_data : list (string * bytes);
  service_uuids : option (list string)
}.

(** [beacon_data.update(d)] with a parser record [d]. *)
Definition update (beacon_data : gmap string pyval) (d : dict)
  : gmap string pyval :=
  (PVal <$> d) ∪ beacon_data.

(** [device.name or 'Unknown']. *)
Definition name_or_unknown (n : option string) : string :=
  match n with
  | None => "Unknown"
  | Some s => if String.eqb s "" then "Unknown" else s
  end.

(** The loop of [detection_callback] over [service_data.items()]. *)
Fixpoint service_loop (items : list (string * bytes))
    (beacon_data : gmap string pyval) : outcome (gmap string pyval) :=
  match items with
  | [] => mret beacon_data
  | (uuid, data) :: rest =>
      if is_eddystone_uuid uuid then
        eddystone_data ← ScannerCsv.parse_eddystone data;
        if truthy eddystone_data then
          service_loop rest (update beacon_data (default ∅ eddystone_data))
        else service_loop rest beacon_data
      else service_loop rest beacon_data
  end.

(** The first part of [detection_callback]: [beacon_data] as it is when
    [write_to_csv] is called. [timestamp] is the formatted current time. *)
Definition collect_beacon_data (timestamp : string) (dev : device)
    (adv : advertisement_data) : outcome (gmap string pyval) :=
  let beacon_data : gmap string pyval :=
    <["service_uuids" := PList (default [] (service_uuids adv))]>
    (<["rssi" := PVal (VInt (rssi dev))]>
    (<["device_name" := PVal (VStr (name_or_unknown (name dev)))]>
    (<["device_address" := PVal (VStr (address dev))]>
    (<["timestamp" := PVal (VStr timestamp)]> ∅)))) in
  beacon_data ←
    match manufacturer_data adv with
    | [] => mret beacon_data
    | _ :: _ =>
        mfg_info ← ScannerCsv.parse_manufacturer_data (manufacturer_data adv);
        mret (update beacon_data mfg_info)
    end;
  match service_data adv with
  | [] => mret beacon_data
  | _ :: _ => service_loop (service_data adv) beacon_data
  end.

(** [detection_callback], as it acts on the CSV file. *)
Definition detection_callback (timestamp : string) (dev : device)
    (adv : advertisement_data) (file : csv_file) : outcome csv_file :=
  beacon_data ← collect_beacon_data timestamp dev adv;
  mret (write_to_csv file beacon_data).

End CsvLog.

(** ** Further notions used to state properties of the code *)

(** [self.GOOGLE_COMPANY_ID], which both scanners set and never read. *)
Definition GOOGLE_COMPANY_ID : N := 0x00AA.

(** The keys of an iBeacon record, with the key that holds the kind
    (["type"] in [ble_scanner.py], ["beacon_type"] in the CSV scanner). *)
Definition ibeacon_keys (kind_key : string) : list string :=
  [kind_key; "uuid"; "major"; "minor"; "tx_power"; "raw_data"].

(** The keys only an iBeacon record writes. *)
Definition ibeacon_only_keys (kind_key : string) : list string :=
  [kind_key; "uuid"; "major"; "minor"; "tx_power"].

(** The keys a dispatcher record can hold. *)
Definition dispatch_keys (kind_key : string) : list string :=
  "company_id" :: ibeacon_keys kind_key.

(** The keys a record of the CSV scanner's Eddystone parser can hold. *)
Definition csv_eddystone_keys : list string :=
  ["beacon_type"; "frame_type"; "raw_data"; "tx_power"; "namespace";
   "instance"; "battery_voltage"; "temperature"].

(** The lowercase hex digits of a byte value without zero padding: one
    digit below 16, two from 16 on. *)
Definition unpadded_hex (n : N) : string :=
  if (n <? 16)%N then String (hexdigit lower_hexdigits n) EmptyString
  else
    String (hexdigit lower_hexdigits (n / 16)%N)
      (String (hexdigit lower_hexdigits (n mod 16)%N) EmptyString).

(** A mapping with another vendor's entry followed by an Apple entry too
    short for an iBeacon. *)
Definition other_then_short_apple : list (N * bytes) :=
  [(0x0999%N, byte_of <$> [1; 2; 3]%N);
   (0x004C%N, byte_of <$> [0x10; 0x05; 0x0B]%N)].

(** The value of a string of hex digits ([None] if a character is not
    one). *)
Definition hex_value (s : string) : option N :=
  fold_left (fun acc c =>
    match acc, unhexdigit c with
    | Some a, Some d => Some (16 * a + d)%N
    | _, _ => None
    end) (list_ascii_of_string s) (Some 0%N).

(** Every character of [s] is a digit or an uppercase hex letter. *)
Fixpoint all_upper_hex (s : string) : bool :=
  match s with
  | EmptyString => true
  | String c rest =>
      let n := N_of_ascii c in
      (((48 <=? n) && (n <=? 57)) || ((65 <=? n) && (n <=? 70)))%N
      && all_upper_hex rest
  end.

(** The text of an identifier has four uppercase hex digits that read
    back as the identifier. *)
Definition format_04X_ok (n : N) : bool :=
  Nat.eqb (String.length (format_04X n)) 4
  && all_upper_hex (format_04X n)
  && match hex_value (format_04X n) with
     | Some m => N.eqb m n
     | None => false
     end.

(** [beacon_data] as [detection_callback] first builds it. *)
Definition initial_beacon_data (timestamp : string) (dev : CsvLog.device)
    (adv : CsvLog.advertisement_data) : gmap string CsvLog.pyval :=
  <["service_uuids" :=
      CsvLog.PList (default [] (CsvLog.service_uuids adv))]>
  (<["rssi" := CsvLog.PVal (VInt (CsvLog.rssi dev))]>
  (<["device_name" :=
      CsvLog.PVal (VStr (CsvLog.name_or_unknown (CsvLog.name dev)))]>
  (<["device_address" := CsvLog.PVal (VStr (CsvLog.address dev))]>
  (<["timestamp" := CsvLog.PVal (VStr timestamp)]> ∅)))).

(** One pass of the loop over the service data when the parser returns:
    [beacon_data] after the entry. *)
Definition service_step (beacon_data : gmap string CsvLog.pyval)
    (e : string * bytes) : gmap string CsvLog.pyval :=
  if CsvLog.is_eddystone_uuid e.1 then
    match ScannerCsv.parse_eddystone e.2 with
    | Return eddystone_data =>
        if truthy eddystone_data
        then CsvLog.update beacon_data (default ∅ eddystone_data)
        else beacon_data
    | Raise _ => beacon_data
    end
  else beacon_data.

(** The advertisement with other service data. *)
Definition with_service_data (adv : CsvLog.advertisement_data)
    (items : list (string * bytes)) : CsvLog.advertisement_data :=
  {| CsvLog.manufacturer_data := CsvLog.manufacturer_data adv;
     CsvLog.service_data := items;
     CsvLog.service_uuids := CsvLog.service_uuids adv |}.

(** The cell of an empty string, written for a missing key. *)
Definition blank : CsvLog.pyval := CsvLog.PVal (VStr "").

(** When the Eddystone parser of [ble_scanner.py] gives no result. *)
Definition scanner_eddystone_rejects (data : bytes) : Prop :=
  data = []
  ∨ (byte_at data 0 = 0x00%Z ∧ length data < 2)
  ∨ (byte_at data 0 = 0x10%Z ∧ length data < 3)
  ∨ (byte_at data 0 = 0x20%Z ∧ length data < 14).

(** When the Eddystone parser of [ble_scanner_to_csv.py] gives no result. *)
Definition csv_eddystone_rejects (data : bytes) : Prop :=
  data = []
  ∨ (byte_at data 0 = 0x00%Z ∧ length data < 2)
  ∨ (byte_at data 0 = 0x10%Z ∧ length data < 2)
  ∨ (byte_at data 0 = 0x20%Z ∧ length data < 6).

(** ** Lemmas on the built-ins *)

Section dict_lemmas.

Lemma fold_insert_lookup (items : list (string * value)) (d : dict) k :
  fold_left (fun d kv => <[kv.1 := kv.2]> d) items d !! k
  = items_get k items (d !! k).
Proof.
  revert d. induction items as [|[k' v] items IH]; intros d; simpl; [done|].
  rewrite IH, lookup_insert. f_equal.
  destruct (String.eqb_spec k' k); case_decide; congruence.
Qed.

Lemma dict_of_lookup items k : dict_of items !! k = items_get k items None.
Proof. unfold dict_of. by rewrite fold_insert_lookup, lookup_empty. Qed.

Lemma dict_update_lookup (d other : dict) k :
  dict_update d other !! k
  = match other !! k with Some v => Some v | None => d !! k end.
Proof.
  unfold dict_update. rewrite lookup_union.
  destruct (other !! k), (d !! k); reflexivity.
Qed.

Lemma truthy_lookup (d : dict) k v : d !! k = Some v → truthy (Some d) = true.
Proof.
  intros Hk. simpl. destruct (Nat.eqb_spec (size d) 0) as [Hz|]; [|done].
  apply map_size_empty_iff in Hz. subst d. by rewrite lookup_empty in Hk.
Qed.

End dict_lemmas.

(** Looks a concrete key up in a dictionary built from displays, updates
    and insertions. *)
Ltac dict_lookup :=
  repeat first
    [ rewrite dict_update_lookup
    | rewrite dict_of_lookup
    | rewrite lookup_insert
    | rewrite lookup_empty ];
  simpl; try reflexivity.

(** The same for a key that is a variable: the comparisons with the keys
    of the displays are kept. *)
Ltac dict_lookup_any :=
  repeat first
    [ rewrite dict_update_lookup
    | rewrite dict_of_lookup ];
  cbn [items_get].

(** Splits a buffer known to hold at least [n] bytes into its first [n]
    bytes and the rest. *)
Tactic Notation "split_bytes" ident(data) ident(H) integer(n) :=
  do n (destruct data as [|? data]; [simpl in H; lia|]); clear H.

Section byte_lemmas.

Local Open Scope Z_scope.

(** A byte is determined by its value. *)
Lemma byte_val_lit (x : byte) (n : N) (c : byte) :
  Byte.of_N n = Some c → byte_val x = Z.of_N n → x = c.
Proof.
  unfold byte_val. intros Hc Hx. apply N2Z.inj in Hx. subst n.
  rewrite Byte.of_to_N in Hc. congruence.
Qed.

Lemma be_unsigned_4 (x y z w : byte) :
  be_unsigned [x; y; z; w]
  = byte_val x * 16777216 + byte_val y * 65536 + byte_val z * 256 + byte_val w.
Proof. unfold be_unsigned. simpl. lia. Qed.

End byte_lemmas.

(** ** Hex encoding round trip *)

Lemma fromhex_hex_of_byte (x : byte) (s : string) (tl : bytes) :
  bytes_fromhex s = Some tl →
  bytes_fromhex (hex_of_byte x +:+ s) = Some (x :: tl).
Proof.
  intros H. destruct x; simpl;
    change (bytes_fromhex ("" +:+ s)) with (bytes_fromhex s);
    rewrite H; reflexivity.
Qed.

Lemma fromhex_hex (data : bytes) : bytes_fromhex (bytes_hex data) = Some data.
Proof.
  induction data as [|x data IH]; [reflexivity|].
  change (bytes_hex (x :: data)) with (hex_of_byte x +:+ bytes_hex data).
  by apply fromhex_hex_of_byte.
Qed.

Lemma hex_is_lowercase (data : bytes) : all_lower_hex (bytes_hex data) = true.
Proof.
  induction data as [|x data IH]; [reflexivity|].
  change (bytes_hex (x :: data)) with (hex_of_byte x +:+ bytes_hex data).
  destruct x; simpl; exact IH.
Qed.

(** ** Sanity checks of the built-ins *)

Example py_hex_examples :
  py_hex 0 = "0x0" ∧ py_hex 16 = "0x10" ∧ py_hex 255 = "0xff".
Proof. repeat split. Qed.

Example format_04X_examples :
  format_04X 0x004C = "004C" ∧ format_04X 0x0999 = "0999"
  ∧ format_04X 0xFFFF = "FFFF" ∧ format_04X 0x12345 = "12345".
Proof. repeat split. Qed.

Example struct_unpack0_examples :
  struct_unpack0 fmt_b [Byte.xc5] = Return (-59)%Z
  ∧ struct_unpack0 fmt_BE_H [Byte.x0b; Byte.xe4] = Return 3044%Z
  ∧ struct_unpack0 fmt_BE_h [Byte.xff; Byte.x80] = Return (-128)%Z
  ∧ struct_unpack0 fmt_BE_I [Byte.x00; Byte.x00; Byte.x05; Byte.x78]
    = Return 1400%Z
  ∧ struct_unpack0 fmt_b [] = Raise StructError
  ∧ struct_unpack0 fmt_BE_H [Byte.x01] = Raise StructError.
Proof. repeat split. Qed.

Example int_truediv_examples :
  int_truediv 3224 256%float = 12.59375%float
  ∧ int_truediv (-128) 256%float = (-0.5)%float
  ∧ int_truediv 0 256%float = 0%float.
Proof. repeat split. Qed.

Example slice_examples :
  slice [Byte.x01; Byte.x02; Byte.x03] 1 2 = [Byte.x02]
  ∧ slice [Byte.x01; Byte.x02; Byte.x03] 2 8 = [Byte.x03]
  ∧ slice [Byte.x01] 1 2 = []
  ∧ getitem [Byte.x01] 1 = Raise IndexError.
Proof. repeat split. Qed.

Example bytes_fromhex_examples :
  bytes_fromhex "0A ff" = Some [Byte.x0a; Byte.xff]
  ∧ bytes_fromhex "0" = None ∧ bytes_fromhex "zz" = None.
Proof. repeat split. Qed.

(** ** The iBeacon parsers *)

Lemma scanner_ibeacon_long (mfg_data : bytes) :
  23 ≤ length mfg_data →
  ∃ r, Scanner.parse_ibeacon mfg_data = Return (Some r)
       ∧ r !! "type" = Some (VStr "iBeacon")
       ∧ r !! "raw_data" = Some (VStr (bytes_hex mfg_data))
       ∧ r !! "company_id" = None
       ∧ ibeacon_layout mfg_data r.
Proof.
  intros H. split_bytes mfg_data H 23.
  eexists. split; [reflexivity|].
  unfold ibeacon_layout. repeat split; dict_lookup.
Qed.

Lemma csv_ibeacon_long (mfg_data : bytes) :
  23 ≤ length mfg_data →
  ∃ r, ScannerCsv.parse_ibeacon mfg_data = Return (Some r)
       ∧ r !! "beacon_type" = Some (VStr "iBeacon")
       ∧ r !! "raw_data" = Some (VStr (bytes_hex mfg_data))
       ∧ r !! "company_id" = None
       ∧ ibeacon_layout mfg_data r.
Proof.
  intros H. split_bytes mfg_data H 23.
  eexists. split; [reflexivity|].
  unfold ibeacon_layout. repeat split; dict_lookup.
Qed.

(** The [uuid] text of a full buffer: 36 characters, lowercase hex digits
    in groups of 8, 4, 4, 4 and 12 with hyphens between them. *)
Lemma uuid_shape (mfg_data : bytes) :
  23 ≤ length mfg_data →
  let u := hyphenate_8_4_4_4_12 (hex_at mfg_data 2 16) in
  String.length u = 36
  ∧ all_lower_hex (hex_at mfg_data 2 16) = true
  ∧ (∀ i, i ∈ [8; 13; 18; 23] → String.get i u = Some "-"%char).
Proof.
  intros H. split; [|split].
  - split_bytes mfg_data H 23. reflexivity.
  - apply hex_is_lowercase.
  - split_bytes mfg_data H 23. intros i Hi.
    repeat (apply elem_of_cons in Hi as [->|Hi]; [reflexivity|]).
    by apply elem_of_nil in Hi.
Qed.

Lemma scanner_ibeacon_short (mfg_data : bytes) :
  length mfg_data < 23 → Scanner.parse_ibeacon mfg_data = Return None.
Proof.
  intros H. unfold Scanner.parse_ibeacon, Scanner.parse_ibeacon_body.
  by destruct (Nat.ltb_spec (length mfg_data) 23); [|lia].
Qed.

Lemma csv_ibeacon_short (mfg_data : bytes) :
  length mfg_data < 23 → ScannerCsv.parse_ibeacon mfg_data = Return None.
Proof.
  intros H. unfold ScannerCsv.parse_ibeacon, ScannerCsv.parse_ibeacon_body.
  by destruct (Nat.ltb_spec (length mfg_data) 23); [|lia].
Qed.

(** A record comes out only for a buffer of 23 bytes or more. *)
Lemma scanner_ibeacon_some (mfg_data : bytes) (r : dict) :
  Scanner.parse_ibeacon mfg_data = Return (Some r) → 23 ≤ length mfg_data.
Proof.
  intros H. destruct (Nat.le_gt_cases 23 (length mfg_data)) as [|Hlt]; [done|].
  rewrite (scanner_ibeacon_short _ Hlt) in H. discriminate.
Qed.

Lemma csv_ibeacon_some (mfg_data : bytes) (r : dict) :
  ScannerCsv.parse_ibeacon mfg_data = Return (Some r) → 23 ≤ length mfg_data.
Proof.
  intros H. destruct (Nat.le_gt_cases 23 (length mfg_data)) as [|Hlt]; [done|].
  rewrite (csv_ibeacon_short _ Hlt) in H. discriminate.
Qed.

(** The structured fields depend on the first 23 bytes only. *)
Lemma scanner_ibeacon_prefix (d1 d2 : bytes) :
  23 ≤ length d1 → 23 ≤ length d2 → take 23 d1 = take 23 d2 →
  ∃ r1 r2, Scanner.parse_ibeacon d1 = Return (Some r1)
           ∧ Scanner.parse_ibeacon d2 = Return (Some r2)
           ∧ ∀ k, k ≠ "raw_data" → r1 !! k = r2 !! k.
Proof.
  intros H1 H2 Heq. split_bytes d1 H1 23. split_bytes d2 H2 23.
  simpl in Heq. simplify_eq.
  eexists _, _. split; [reflexivity|]. split; [reflexivity|].
  intros k Hk. dict_lookup_any.
  destruct (String.eqb_spec "raw_data" k); [congruence|reflexivity].
Qed.

(** ** The Eddystone parsers *)

(** Fixes the frame-type byte of a buffer split into its bytes. *)
Ltac frame_byte Hb n c :=
  apply (byte_val_lit _ n c eq_refl) in Hb; subst.

(** Closes a field equation whose two sides are the same big-endian sum. *)
Ltac be_field :=
  try (do 2 f_equal; unfold slice; cbn [drop take Nat.sub];
       rewrite be_unsigned_4; reflexivity).

Lemma scanner_tlm_long (data : bytes) :
  byte_at data 0 = 0x20%Z → 14 ≤ length data →
  ∃ r, Scanner.parse_eddystone data = Return (Some r)
       ∧ r !! "type" = Some (VStr "Eddystone")
       ∧ r !! "frame_type" = Some (VStr "0x20")
       ∧ r !! "frame_type_name" = Some (VStr "TLM")
       ∧ r !! "raw_data" = Some (VStr (bytes_hex data))
       ∧ tlm_layout data r.
Proof.
  intros Hb H. split_bytes data H 14. frame_byte Hb 0x20%N Byte.x20.
  eexists. split; [reflexivity|].
  unfold tlm_layout. repeat split; dict_lookup; be_field.
Qed.

Lemma csv_tlm_long (data : bytes) :
  byte_at data 0 = 0x20%Z → 6 ≤ length data →
  ∃ r, ScannerCsv.parse_eddystone data = Return (Some r)
       ∧ r !! "beacon_type" = Some (VStr "Eddystone")
       ∧ r !! "frame_type" = Some (VStr "TLM")
       ∧ r !! "raw_data" = Some (VStr (bytes_hex data))
       ∧ r !! "battery_voltage" = Some (VInt (u16_be_at data 2))
       ∧ r !! "temperature"
           = Some (VFloat (int_truediv (s16_be_at data 4) 256%float))
       ∧ r !! "version" = None
       ∧ r !! "advertising_count" = None
       ∧ r !! "seconds_since_boot" = None.
Proof.
  intros Hb H. split_bytes data H 6. frame_byte Hb 0x20%N Byte.x20.
  eexists. split; [reflexivity|].
  repeat split; dict_lookup.
Qed.

(** The structured TLM fields depend on the first 14 bytes only. *)
Lemma scanner_tlm_prefix (d1 d2 : bytes) :
  byte_at d1 0 = 0x20%Z → 14 ≤ length d1 → 14 ≤ length d2 →
  take 14 d1 = take 14 d2 →
  ∃ r1 r2, Scanner.parse_eddystone d1 = Return (Some r1)
           ∧ Scanner.parse_eddystone d2 = Return (Some r2)
           ∧ ∀ k, k ≠ "raw_data" → r1 !! k = r2 !! k.
Proof.
  intros Hb H1 H2 Heq. split_bytes d1 H1 14. split_bytes d2 H2 14.
  simpl in Heq. simplify_eq. frame_byte Hb 0x20%N Byte.x20.
  eexists _, _. split; [reflexivity|]. split; [reflexivity|].
  intros k Hk. dict_lookup_any.
  destruct (String.eqb_spec "raw_data" k); [congruence|reflexivity].
Qed.

Lemma scanner_url_long (data : bytes) :
  byte_at data 0 = 0x10%Z → 3 ≤ length data →
  ∃ r, Scanner.parse_eddystone data = Return (Some r)
       ∧ r !! "type" = Some (VStr "Eddystone")
       ∧ r !! "frame_type" = Some (VStr "0x10")
       ∧ r !! "frame_type_name" = Some (VStr "URL")
       ∧ r !! "raw_data" = Some (VStr (bytes_hex data))
       ∧ url_layout data r.
Proof.
  intros Hb H. split_bytes data H 3. frame_byte Hb 0x10%N Byte.x10.
  eexists. split; [reflexivity|].
  unfold url_layout. repeat split; dict_lookup.
Qed.

Lemma scanner_url_short (data : bytes) :
  byte_at data 0 = 0x10%Z → length data < 3 →
  Scanner.parse_eddystone data = Return None.
Proof.
  intros Hb H. destruct data as [|x0 [|x1 [|x2 data]]];
    [discriminate Hb| | |simpl in H; lia];
    frame_byte Hb 0x10%N Byte.x10; reflexivity.
Qed.

Lemma csv_url_long (data : bytes) :
  byte_at data 0 = 0x10%Z → 2 ≤ length data →
  ∃ r, ScannerCsv.parse_eddystone data = Return (Some r)
       ∧ r !! "beacon_type" = Some (VStr "Eddystone")
       ∧ r !! "frame_type" = Some (VStr "URL")
       ∧ r !! "raw_data" = Some (VStr (bytes_hex data))
       ∧ r !! "tx_power" = Some (VInt (s8_at data 1))
       ∧ r !! "url_scheme" = None
       ∧ r !! "encoded_url" = None.
Proof.
  intros Hb H. split_bytes data H 2. frame_byte Hb 0x10%N Byte.x10.
  eexists. split; [reflexivity|].
  repeat split; dict_lookup.
Qed.

Lemma csv_url_short (data : bytes) :
  byte_at data 0 = 0x10%Z → length data < 2 →
  ScannerCsv.parse_eddystone data = Return None.
Proof.
  intros Hb H. destruct data as [|x0 [|x1 data]];
    [discriminate Hb| |simpl in H; lia];
    frame_byte Hb 0x10%N Byte.x10; reflexivity.
Qed.

(** A UID frame yields a record as soon as it has two bytes: [namespace]
    and [instance] are the hex of the bytes present at offsets 2-11 and
    12-17, however few. *)
Lemma scanner_uid_two (data : bytes) :
  byte_at data 0 = 0x00%Z → 2 ≤ length data →
  ∃ r, Scanner.parse_eddystone data = Return (Some r)
       ∧ r !! "frame_type" = Some (VStr "0x0")
       ∧ r !! "frame_type_name" = Some (VStr "UID")
       ∧ r !! "raw_data" = Some (VStr (bytes_hex data))
       ∧ uid_layout data r.
Proof.
  intros Hb H. split_bytes data H 2. frame_byte Hb 0x00%N Byte.x00.
  eexists. split; [reflexivity|].
  unfold uid_layout. repeat split; dict_lookup.
Qed.

Lemma csv_uid_two (data : bytes) :
  byte_at data 0 = 0x00%Z → 2 ≤ length data →
  ∃ r, ScannerCsv.parse_eddystone data = Return (Some r)
       ∧ r !! "frame_type" = Some (VStr "UID")
       ∧ r !! "raw_data" = Some (VStr (bytes_hex data))
       ∧ uid_layout data r.
Proof.
  intros Hb H. split_bytes data H 2. frame_byte Hb 0x00%N Byte.x00.
  eexists. split; [reflexivity|].
  unfold uid_layout. repeat split; dict_lookup.
Qed.

Lemma uid_one_byte (x : byte) :
  byte_val x = 0%Z →
  Scanner.parse_eddystone [x] = Return None
  ∧ ScannerCsv.parse_eddystone [x] = Return None.
Proof.
  intros Hb. frame_byte Hb 0x00%N Byte.x00. split; reflexivity.
Qed.

(** Whatever the frame, a record carries the hex of the whole buffer. *)
Lemma scanner_eddystone_raw (data : bytes) (r : dict) :
  Scanner.parse_eddystone data = Return (Some r) →
  r !! "raw_data" = Some (VStr (bytes_hex data)).
Proof.
  destruct data as [|x data]; [discriminate|].
  unfold Scanner.parse_eddystone, Scanner.parse_eddystone_body.
  change (getitem (x :: data) 0) with (Return (byte_val x)).
  unfold mbind, outcome_bind, mret, outcome_ret, try_except.
  intros H. repeat case_match; simplify_eq; dict_lookup.
Qed.

Lemma csv_eddystone_raw (data : bytes) (r : dict) :
  ScannerCsv.parse_eddystone data = Return (Some r) →
  r !! "raw_data" = Some (VStr (bytes_hex data)).
Proof.
  destruct data as [|x data]; [discriminate|].
  unfold ScannerCsv.parse_eddystone, ScannerCsv.parse_eddystone_body.
  change (getitem (x :: data) 0) with (Return (byte_val x)).
  unfold mbind, outcome_bind, mret, outcome_ret, try_except.
  intros H. repeat case_match; simplify_eq; dict_lookup.
Qed.

(** ** The manufacturer-data dispatcher *)

Lemma scanner_loop_eq (items : list (N * bytes)) (result : dict) :
  Scanner.parse_manufacturer_data_loop items result
  = dispatch_loop Scanner.APPLE_COMPANY_ID Scanner.parse_ibeacon items result.
Proof.
  revert result. induction items as [|[cid data] items IH]; intros result;
    [reflexivity|].
  simpl. destruct (cid =? Scanner.APPLE_COMPANY_ID)%N; [|apply IH].
  destruct (Scanner.parse_ibeacon data) as [o|]; [|reflexivity].
  simpl. destruct (truthy o); apply IH.
Qed.

Lemma csv_loop_eq (items : list (N * bytes)) (result : dict) :
  ScannerCsv.parse_manufacturer_data_loop items result
  = dispatch_loop ScannerCsv.APPLE_COMPANY_ID ScannerCsv.parse_ibeacon
      items result.
Proof.
  revert result. induction items as [|[cid data] items IH]; intros result;
    [reflexivity|].
  simpl. destruct (cid =? ScannerCsv.APPLE_COMPANY_ID)%N; [|apply IH].
  destruct (ScannerCsv.parse_ibeacon data) as [o|]; [|reflexivity].
  simpl. destruct (truthy o); apply IH.
Qed.

Section dispatcher.

Variable apple : N.
Variable parse : bytes → outcome (option dict).

Hypothesis apple_id : apple = 0x004C%N.
Hypothesis parse_returns : ∀ data, ∃ o, parse data = Return o.
Hypothesis parse_short :
  ∀ data, length data < 23 → parse data = Return None.
Hypothesis parse_raw :
  ∀ data d, parse data = Return (Some d) →
  d !! "raw_data" = Some (VStr (bytes_hex data)).

(** The loop returns, and its result is the fold of the loop body. *)
Lemma dispatch_loop_fold (items : list (N * bytes)) (result : dict) :
  dispatch_loop apple parse items result
  = Return (fold_left (dispatch_step apple parse) items result).
Proof.
  revert result. induction items as [|[cid data] items IH]; intros result;
    [reflexivity|].
  simpl. unfold dispatch_step at 2. simpl.
  destruct (cid =? apple)%N; [|apply IH].
  destruct (parse_returns data) as [o ->]. simpl.
  destruct (truthy o); apply IH.
Qed.

(** What an entry writes wins; everything else is kept. *)
Lemma dispatch_step_union (result : dict) (e : N * bytes) :
  dispatch_step apple parse result e
  = dispatch_step apple parse ∅ e ∪ result.
Proof.
  unfold dispatch_step, dict_update.
  destruct (e.1 =? apple)%N.
  - destruct (parse e.2) as [o|];
      [destruct (truthy o)|];
      rewrite <- ?(assoc_L (∪)), <- !insert_union_l, (left_id_L ∅ (∪));
      reflexivity.
  - rewrite <- !insert_union_l, (left_id_L ∅ (∪)). reflexivity.
Qed.

Lemma dispatch_step_company_id (result : dict) (e : N * bytes) :
  dispatch_step apple parse result e !! "company_id"
  = Some (VStr ("0x" +:+ format_04X e.1)) ∨
  ∃ d, parse e.2 = Return (Some d) ∧ is_Some (d !! "company_id").
Proof.
  unfold dispatch_step, dict_update.
  destruct (e.1 =? apple)%N.
  - destruct (parse e.2) as [[d|]|] eqn:Hp; simpl;
      [destruct (negb _)| |]; try (left; by rewrite lookup_insert_eq).
    rewrite lookup_union, lookup_insert_eq.
    destruct (d !! "company_id") eqn:Hd; [right|left; done].
    eexists. split; [done|]. by rewrite Hd.
  - left. by rewrite lookup_insert_ne, lookup_insert_eq.
Qed.

(** When every Apple payload is too short, only [company_id] and
    [raw_data] are ever written, and [raw_data] only by non-Apple entries. *)
Lemma fold_short_apple (items : list (N * bytes)) (result : dict) :
  (∀ cid data, (cid, data) ∈ items → cid = apple → length data < 23) →
  let r := fold_left (dispatch_step apple parse) items result in
  (∀ k, k ≠ "company_id" → k ≠ "raw_data" → r !! k = result !! k)
  ∧ r !! "raw_data"
    = fold_left (fun acc e =>
        if (e.1 =? 0x004C)%N then acc else Some (VStr (bytes_hex e.2)))
        items (result !! "raw_data")
  ∧ (items ≠ [] → is_Some (r !! "company_id")).
Proof.
  revert result. induction items as [|[cid data] items IH] using rev_ind;
    intros result Hshort; [by simpl|].
  simpl. rewrite !fold_left_app. simpl.
  destruct (IH result) as (Hk & Hraw & _).
  { intros c d Hin. apply Hshort. apply elem_of_app. by left. }
  set (r0 := fold_left (dispatch_step apple parse) items result) in *.
  unfold dispatch_step. simpl.
  destruct (N.eqb_spec cid apple) as [->|Hne].
  - rewrite parse_short;
      [|apply (Hshort apple); [apply elem_of_app; right; constructor|done]].
    simpl.
    rewrite apple_id at 2. simpl.
    split; [|split].
    + intros k Hc Hr. rewrite lookup_insert_ne by done. by apply Hk.
    + by rewrite lookup_insert_ne.
    + intros _. by rewrite lookup_insert_eq.
  - rewrite apple_id in Hne. apply N.eqb_neq in Hne. rewrite Hne.
    split; [|split].
    + intros k Hc Hr. rewrite !lookup_insert_ne by done. by apply Hk.
    + by rewrite lookup_insert_eq.
    + intros _. by rewrite lookup_insert_ne, lookup_insert_eq.
Qed.

(** Every [raw_data] in the result is the hex of some entry's payload. *)
Lemma fold_raw_source (items : list (N * bytes)) (result : dict) v :
  fold_left (dispatch_step apple parse) items result !! "raw_data" = Some v →
  result !! "raw_data" = Some v
  ∨ ∃ cid data, (cid, data) ∈ items ∧ v = VStr (bytes_hex data).
Proof.
  revert result. induction items as [|[cid data] items IH]; intros result;
    [by left|].
  simpl. intros H. apply IH in H as [H|(c & d & Hin & ->)].
  2: { right. exists c, d. split; [by apply elem_of_cons; right|done]. }
  assert ((cid, data) ∈ (cid, data) :: items) as Hhere by constructor.
  revert H. unfold dispatch_step, dict_update. simpl.
  destruct (cid =? apple)%N.
  - destruct (parse data) as [[d|]|] eqn:Hp; simpl.
    + destruct (negb _).
      * rewrite lookup_union, (parse_raw _ _ Hp), lookup_insert_ne by done.
        destruct (result !! "raw_data"); simpl; intros [= <-]; eauto.
      * rewrite lookup_insert_ne by done. by left.
    + rewrite lookup_insert_ne by done. by left.
    + rewrite lookup_insert_ne by done. by left.
  - rewrite lookup_insert_eq. intros [= <-]. eauto.
Qed.

End dispatcher.

(** The hypotheses of the [dispatcher] section hold of both scanners. *)

Lemma scanner_ibeacon_returns (data : bytes) :
  ∃ o, Scanner.parse_ibeacon data = Return o.
Proof.
  unfold Scanner.parse_ibeacon.
  destruct (Scanner.parse_ibeacon_body data); simpl; eauto.
Qed.

Lemma csv_ibeacon_returns (data : bytes) :
  ∃ o, ScannerCsv.parse_ibeacon data = Return o.
Proof.
  unfold ScannerCsv.parse_ibeacon.
  destruct (ScannerCsv.parse_ibeacon_body data); simpl; eauto.
Qed.

Lemma scanner_ibeacon_raw (data : bytes) (d : dict) :
  Scanner.parse_ibeacon data = Return (Some d) →
  d !! "raw_data" = Some (VStr (bytes_hex data)).
Proof.
  intros H. destruct (scanner_ibeacon_long data) as (r & Hr & _ & Hraw & _);
    [by eapply scanner_ibeacon_some|]. congruence.
Qed.

Lemma csv_ibeacon_raw (data : bytes) (d : dict) :
  ScannerCsv.parse_ibeacon data = Return (Some d) →
  d !! "raw_data" = Some (VStr (bytes_hex data)).
Proof.
  intros H. destruct (csv_ibeacon_long data) as (r & Hr & _ & Hraw & _);
    [by eapply csv_ibeacon_some|]. congruence.
Qed.

Lemma scanner_dispatch_fold (mfg_data : list (N * bytes)) :
  Scanner.parse_manufacturer_data mfg_data
  = Return (fold_left
      (dispatch_step Scanner.APPLE_COMPANY_ID Scanner.parse_ibeacon)
      mfg_data ∅).
Proof.
  unfold Scanner.parse_manufacturer_data. rewrite scanner_loop_eq.
  apply dispatch_loop_fold, scanner_ibeacon_returns.
Qed.

Lemma csv_dispatch_fold (mfg_data : list (N * bytes)) :
  ScannerCsv.parse_manufacturer_data mfg_data
  = Return (fold_left
      (dispatch_step ScannerCsv.APPLE_COMPANY_ID ScannerCsv.parse_ibeacon)
      mfg_data ∅).
Proof.
  unfold ScannerCsv.parse_manufacturer_data. rewrite csv_loop_eq.
  apply dispatch_loop_fold, csv_ibeacon_returns.
Qed.

(** A mapping has one payload per company identifier. *)
Lemma unique_payload (mfg_data : list (N * bytes)) cid d1 d2 :
  NoDup mfg_data.*1 → (cid, d1) ∈ mfg_data → (cid, d2) ∈ mfg_data → d1 = d2.
Proof.
  induction mfg_data as [|[c d] l IH]; simpl; intros Hnd H1 H2;
    [by apply elem_of_nil in H1|].
  apply NoDup_cons in Hnd as [Hc Hnd].
  apply elem_of_cons in H1 as [H1|H1]; apply elem_of_cons in H2 as [H2|H2];
    simplify_eq.
  - done.
  - destruct Hc. apply (list_elem_of_fmap_2 fst) in H2. done.
  - destruct Hc. apply (list_elem_of_fmap_2 fst) in H1. done.
  - by apply IH.
Qed.

(** A single Apple entry with a full iBeacon payload. *)
Lemma dispatch_single_ibeacon (parse : bytes → outcome (option dict))
    (data : bytes) (d : dict) :
  parse data = Return (Some d) → is_Some (d !! "uuid") →
  dispatch_step 0x004C parse ∅ (0x004C%N, data)
  = d ∪ {["company_id" := VStr "0x004C"]}.
Proof.
  intros Hp [v Hv]. unfold dispatch_step. simpl. rewrite Hp.
  rewrite (truthy_lookup _ _ _ Hv). reflexivity.
Qed.

(** ** The properties of the decoder *)

(** C1. For every manufacturer-data buffer of at least 23 bytes, the
    iBeacon parser of either scanner succeeds and returns a record whose
    [uuid] is the lowercase hex of bytes 2-17 hyphenated in groups of 8, 4,
    4, 4 and 12 digits (36 characters), whose [major] and [minor] are the
    unsigned big-endian 16-bit integers at offsets 18 and 20, and whose
    [tx_power] is the signed byte at offset 22; presented under company
    identifier 0x004C, the dispatcher's record carries these fields. The
    known-good 23-byte buffer decodes to
    e2c56db5-dffb-48d2-b060-d0f5a71096e0, major 1, minor 2, power -59. *)
Theorem ibeacon_decode :
  (∀ mfg_data : bytes, 23 ≤ length mfg_data →
     (∃ r, Scanner.parse_ibeacon mfg_data = Return (Some r)
           ∧ ibeacon_layout mfg_data r) ∧
     (∃ r, ScannerCsv.parse_ibeacon mfg_data = Return (Some r)
           ∧ ibeacon_layout mfg_data r) ∧
     (∃ r, Scanner.parse_manufacturer_data [(0x004C%N, mfg_data)] = Return r
           ∧ ibeacon_layout mfg_data r) ∧
     (∃ r, ScannerCsv.parse_manufacturer_data [(0x004C%N, mfg_data)] = Return r
           ∧ ibeacon_layout mfg_data r) ∧
     String.length (hyphenate_8_4_4_4_12 (hex_at mfg_data 2 16)) = 36 ∧
     all_lower_hex (hex_at mfg_data 2 16) = true) ∧
  (∀ parse, parse = Scanner.parse_ibeacon ∨ parse = ScannerCsv.parse_ibeacon →
     ∃ r, parse ibeacon_sample = Return (Some r)
          ∧ r !! "uuid" = Some (VStr "e2c56db5-dffb-48d2-b060-d0f5a71096e0")
          ∧ r !! "major" = Some (VInt 1)
          ∧ r !! "minor" = Some (VInt 2)
          ∧ r !! "tx_power" = Some (VInt (-59))).
Proof.
  split.
  - intros mfg_data H.
    destruct (scanner_ibeacon_long _ H) as (r1 & Hr1 & _ & _ & Hc1 & L1).
    destruct (csv_ibeacon_long _ H) as (r2 & Hr2 & _ & _ & Hc2 & L2).
    assert (∀ (r : dict), ibeacon_layout mfg_data r →
      ibeacon_layout mfg_data (r ∪ {["company_id" := VStr "0x004C"]}))
      as Hmerge.
    { intros r (Hu & Hma & Hmi & Htx).
      repeat split; apply lookup_union_Some_l; done. }
    repeat split.
    + eauto.
    + eauto.
    + eexists. split; [apply scanner_dispatch_fold|].
      unfold Scanner.APPLE_COMPANY_ID. cbn [fold_left].
      rewrite (dispatch_single_ibeacon _ _ _ Hr1);
        [by apply Hmerge|by rewrite (proj1 L1)].
    + eexists. split; [apply csv_dispatch_fold|].
      unfold ScannerCsv.APPLE_COMPANY_ID. cbn [fold_left].
      rewrite (dispatch_single_ibeacon _ _ _ Hr2);
        [by apply Hmerge|by rewrite (proj1 L2)].
    + apply (uuid_shape _ H).
    + apply (uuid_shape _ H).
  - intros parse [-> | ->]; eexists; (split; [reflexivity|]);
      repeat split; dict_lookup.
Qed.

Lemma ibeacon_decode_witness :
  23 ≤ length ibeacon_sample ∧
  ∃ r, Scanner.parse_ibeacon ibeacon_sample = Return (Some r)
       ∧ ibeacon_layout ibeacon_sample r.
Proof.
  split.
  - simpl. lia.
  - apply (proj1 ibeacon_decode ibeacon_sample). simpl. lia.
Defined.

(** How far the missing fallback goes. For every manufacturer-data mapping
    (one payload per company identifier) with an entry 0x004C whose
    payload is shorter than 23 bytes, the dispatcher of either scanner
    returns a record in which [company_id] is set and no iBeacon field is
    set, but the hex of that payload is never written: [raw_data] is
    absent, or left from the last entry of another vendor. *)
Theorem short_apple_record (mfg_data : list (N * bytes)) (data : bytes) :
  NoDup mfg_data.*1 → (0x004C%N, data) ∈ mfg_data → length data < 23 →
  ∀ dispatch,
    dispatch = Scanner.parse_manufacturer_data
    ∨ dispatch = ScannerCsv.parse_manufacturer_data →
  ∃ r, dispatch mfg_data = Return r
       ∧ is_Some (r !! "company_id")
       ∧ no_ibeacon_fields r
       ∧ (∀ k, k ≠ "company_id" → k ≠ "raw_data" → r !! k = None)
       ∧ r !! "raw_data" = last_other_raw mfg_data
       ∧ (mfg_data = [(0x004C%N, data)] → r !! "raw_data" = None).
Proof.
  intros Hnd Hin Hlen dispatch Hd.
  assert (∀ cid d, (cid, d) ∈ mfg_data → cid = 0x004C%N → length d < 23)
    as Hshort.
  { intros cid d Hin' ->. by rewrite (unique_payload _ _ _ _ Hnd Hin' Hin). }
  assert (mfg_data ≠ []) as Hne by (intros ->; by apply elem_of_nil in Hin).
  assert (∀ r : dict,
    (∀ k, k ≠ "company_id" → k ≠ "raw_data" → r !! k = (∅ : dict) !! k) →
    no_ibeacon_fields r) as Hnone.
  { intros r Hk. repeat split; rewrite Hk; done. }
  destruct Hd as [-> | ->].
  - destruct (fold_short_apple Scanner.APPLE_COMPANY_ID Scanner.parse_ibeacon
      eq_refl scanner_ibeacon_short mfg_data ∅ Hshort) as (Hk & Hraw & Hc).
    eexists. split; [apply scanner_dispatch_fold|].
    repeat split; try apply Hnone; auto.
    intros ->. rewrite Hraw. reflexivity.
  - destruct (fold_short_apple ScannerCsv.APPLE_COMPANY_ID
      ScannerCsv.parse_ibeacon eq_refl csv_ibeacon_short mfg_data ∅ Hshort)
      as (Hk & Hraw & Hc).
    eexists. split; [apply csv_dispatch_fold|].
    repeat split; try apply Hnone; auto.
    intros ->. rewrite Hraw. reflexivity.
Qed.

Lemma short_apple_record_witness :
  ∃ r, Scanner.parse_manufacturer_data short_apple = Return r
       ∧ is_Some (r !! "company_id")
       ∧ no_ibeacon_fields r
       ∧ r !! "raw_data" = None.
Proof.
  destruct (short_apple_record short_apple (byte_of <$> [0x10; 0x05; 0x0B]%N))
    with (dispatch := Scanner.parse_manufacturer_data)
    as (r & Hr & Hc & Hn & _ & _ & Hraw).
  - repeat constructor. apply not_elem_of_nil.
  - constructor.
  - simpl. lia.
  - by left.
  - exists r. repeat split; try apply Hn; auto.
Defined.

(** The raw-hex fallback does not hold of the code: for the mapping with
    the single entry 0x004C and a 3-byte payload, the record has no
    [raw_data]. *)
Lemma short_apple_no_raw_hex :
  ¬ short_apple_contract Scanner.parse_manufacturer_data short_apple.
Proof.
  intros H.
  destruct (H (byte_of <$> [0x10; 0x05; 0x0B]%N)) as (r & Hr & _ & _ & Hraw).
  - constructor.
  - simpl. lia.
  - rewrite scanner_dispatch_fold in Hr. injection Hr as <-.
    vm_compute in Hraw. discriminate.
Qed.

(** C2, on the code. For the mapping with the single entry 0x004C and the
    3-byte payload 10 05 0B, the dispatcher of either scanner returns the
    record with [company_id] 0x004C alone: [raw_data], which the claim
    sets to the hex 10050b of the payload, is absent. With an entry 0x0999
    of payload 01 02 03 before it, the record has [company_id] 0x004C and
    the [raw_data] 010203 of the other entry. The non-Apple branch and a
    decoded iBeacon both write [raw_data]; only this path leaves it out. *)
Theorem short_apple_drops_raw_hex :
  (∀ dispatch,
     dispatch = Scanner.parse_manufacturer_data
     ∨ dispatch = ScannerCsv.parse_manufacturer_data →
     dispatch short_apple
       = Return (dict_of [("company_id", VStr "0x004C")])
     ∧ (∃ r, dispatch short_apple = Return r ∧ r !! "raw_data" = None)
     ∧ (∃ r, dispatch other_then_short_apple = Return r
          ∧ r !! "company_id" = Some (VStr "0x004C")
          ∧ r !! "raw_data" = Some (VStr "010203")
          ∧ no_ibeacon_fields r)) ∧
  bytes_hex (byte_of <$> [0x10; 0x05; 0x0B]%N) = "10050b" ∧
  Scanner.parse_manufacturer_data [(0x0999%N, byte_of <$> [0x10; 0x05; 0x0B]%N)]
    = Return (dict_of [("company_id", VStr "0x0999");
                       ("raw_data", VStr "10050b")]).
Proof.
  split; [|split; reflexivity].
  intros dispatch [-> | ->].
  - split; [reflexivity|]. split.
    + eexists. split; [apply scanner_dispatch_fold|]. reflexivity.
    + eexists. split; [apply scanner_dispatch_fold|].
      repeat split; reflexivity.
  - split; [reflexivity|]. split.
    + eexists. split; [apply csv_dispatch_fold|]. reflexivity.
    + eexists. split; [apply csv_dispatch_fold|].
      repeat split; reflexivity.
Qed.

(** C3, on the code. The 17-byte UID frame (first byte 0x00, one byte
    short of the 18 of the layout) is decoded by either scanner: the
    parser returns a record with the frame type, the power of offset 1, the
    namespace of bytes 2-11 and an [instance] made of the five bytes
    present at offsets 12-16. *)
Theorem uid_17_bytes_decoded :
  length uid_short_sample = 17 ∧ byte_at uid_short_sample 0 = 0x00%Z ∧
  (∃ r, Scanner.parse_eddystone uid_short_sample = Return (Some r)
        ∧ r !! "frame_type" = Some (VStr "0x0")
        ∧ r !! "frame_type_name" = Some (VStr "UID")
        ∧ r !! "tx_power" = Some (VInt (-18))
        ∧ r !! "namespace" = Some (VStr "0102030405060708090a")
        ∧ r !! "instance" = Some (VStr "a1a2a3a4a5")) ∧
  (∃ r, ScannerCsv.parse_eddystone uid_short_sample = Return (Some r)
        ∧ r !! "frame_type" = Some (VStr "UID")
        ∧ r !! "tx_power" = Some (VInt (-18))
        ∧ r !! "namespace" = Some (VStr "0102030405060708090a")
        ∧ r !! "instance" = Some (VStr "a1a2a3a4a5")).
Proof.
  split; [reflexivity|]. split; [reflexivity|].
  split; eexists; (split; [reflexivity|]); repeat split; dict_lookup.
Qed.

(** C4, as the code has it. For every service-data buffer whose first byte
    is 0x20 and whose length is at least 14, the Eddystone parser of
    [ble_scanner.py] returns a TLM record with [version] the byte at
    offset 1, [battery_voltage] the unsigned big-endian 16-bit integer at
    offset 2, [temperature] the signed big-endian 16-bit integer at offset
    4 divided by 256.0, [advertising_count] and [seconds_since_boot] the
    unsigned big-endian 32-bit integers at offsets 6 and 10; the sample
    frame decodes to 0, 3044, 12.59375, 5 and 1400. The parser of
    [ble_scanner_to_csv.py] returns a TLM record with [battery_voltage] and
    [temperature] only. *)
Theorem tlm_decode :
  (∀ data, tlm_frame_contract Scanner.parse_eddystone data) ∧
  (∃ r, Scanner.parse_eddystone tlm_sample = Return (Some r)
        ∧ r !! "version" = Some (VInt 0)
        ∧ r !! "battery_voltage" = Some (VInt 3044)
        ∧ r !! "temperature" = Some (VFloat 12.59375%float)
        ∧ r !! "advertising_count" = Some (VInt 5)
        ∧ r !! "seconds_since_boot" = Some (VInt 1400)) ∧
  (∀ data : bytes, byte_at data 0 = 0x20%Z → 14 ≤ length data →
     ∃ r, ScannerCsv.parse_eddystone data = Return (Some r)
          ∧ r !! "frame_type" = Some (VStr "TLM")
          ∧ r !! "battery_voltage" = Some (VInt (u16_be_at data 2))
          ∧ r !! "temperature"
              = Some (VFloat (int_truediv (s16_be_at data 4) 256%float))
          ∧ r !! "version" = None
          ∧ r !! "advertising_count" = None
          ∧ r !! "seconds_since_boot" = None).
Proof.
  split; [|split].
  - intros data Hb H.
    destruct (scanner_tlm_long _ Hb H) as (r & Hr & _ & _ & _ & _ & L).
    eauto.
  - eexists. split; [reflexivity|]. repeat split; dict_lookup.
  - intros data Hb H.
    destruct (csv_tlm_long data Hb) as (r & Hr & _ & Hf & _ & L); [lia|].
    eauto.
Qed.

Lemma tlm_decode_witness :
  byte_at tlm_sample 0 = 0x20%Z ∧ 14 ≤ length tlm_sample ∧
  ∃ r, Scanner.parse_eddystone tlm_sample = Return (Some r)
       ∧ tlm_layout tlm_sample r.
Proof.
  split; [reflexivity|]. split; [simpl; lia|].
  apply (proj1 tlm_decode tlm_sample); [reflexivity|simpl; lia].
Defined.

(** C4 as the specification states it fails on [ble_scanner_to_csv.py]:
    the sample TLM frame yields a record without [version]. *)
Lemma csv_tlm_drops_fields :
  ¬ tlm_frame_contract ScannerCsv.parse_eddystone tlm_sample.
Proof.
  intros H. destruct H as (r & Hr & Hv & _); [reflexivity|simpl; lia|].
  destruct (csv_tlm_long tlm_sample) as (r' & Hr' & _ & _ & _ & _ & _ & Hnone & _);
    [reflexivity|simpl; lia|].
  congruence.
Qed.

(** C5, as the code has it. For every service-data buffer whose first byte
    is 0x10, the Eddystone parser of [ble_scanner.py] returns, when the
    buffer has at least 3 bytes, a URL record with [tx_power] the signed
    byte at offset 1, [url_scheme] the byte at offset 2 and [encoded_url]
    the hex of the bytes from offset 3 on, and no result when it is
    shorter. The parser of [ble_scanner_to_csv.py] returns a URL record
    with [tx_power] alone as soon as the buffer has 2 bytes, and no result
    for the 1-byte buffer. *)
Theorem url_decode :
  (∀ data, url_frame_contract Scanner.parse_eddystone data) ∧
  (∀ data : bytes, byte_at data 0 = 0x10%Z →
     (2 ≤ length data →
        ∃ r, ScannerCsv.parse_eddystone data = Return (Some r)
             ∧ r !! "frame_type" = Some (VStr "URL")
             ∧ r !! "tx_power" = Some (VInt (s8_at data 1))
             ∧ r !! "url_scheme" = None
             ∧ r !! "encoded_url" = None) ∧
     (length data < 2 → ScannerCsv.parse_eddystone data = Return None)).
Proof.
  split.
  - intros data Hb. split.
    + intros H.
      destruct (scanner_url_long _ Hb H) as (r & Hr & _ & _ & _ & _ & L).
      eauto.
    + by apply scanner_url_short.
  - intros data Hb. split.
    + intros H.
      destruct (csv_url_long _ Hb H) as (r & Hr & _ & Hf & _ & L). eauto.
    + by apply csv_url_short.
Qed.

Lemma url_decode_witness :
  byte_at url_sample 0 = 0x10%Z ∧ 3 ≤ length url_sample ∧
  ∃ r, Scanner.parse_eddystone url_sample = Return (Some r)
       ∧ url_layout url_sample r.
Proof.
  split; [reflexivity|]. split; [simpl; lia|].
  apply (proj1 url_decode url_sample); [reflexivity|simpl; lia].
Defined.

(** C5 as the specification states it fails on [ble_scanner_to_csv.py]:
    the sample URL frame yields a record without [url_scheme]. *)
Lemma csv_url_drops_fields :
  ¬ url_frame_contract ScannerCsv.parse_eddystone url_sample.
Proof.
  intros H. destruct H as [H _]; [reflexivity|].
  destruct H as (r & Hr & _ & Hs & _); [simpl; lia|].
  destruct (csv_url_long url_sample) as (r' & Hr' & _ & _ & _ & _ & Hnone & _);
    [reflexivity|simpl; lia|].
  congruence.
Qed.

(** An iBeacon record has no [company_id] of its own. *)
Lemma scanner_ibeacon_no_company_id (data : bytes) (d : dict) :
  Scanner.parse_ibeacon data = Return (Some d) → d !! "company_id" = None.
Proof.
  intros H. destruct (scanner_ibeacon_long data) as (r & Hr & _ & _ & Hc & _);
    [by eapply scanner_ibeacon_some|]. congruence.
Qed.

Lemma csv_ibeacon_no_company_id (data : bytes) (d : dict) :
  ScannerCsv.parse_ibeacon data = Return (Some d) → d !! "company_id" = None.
Proof.
  intros H. destruct (csv_ibeacon_long data) as (r & Hr & _ & _ & Hc & _);
    [by eapply csv_ibeacon_some|]. congruence.
Qed.

(** C6, as the code has it. For every manufacturer-data mapping processed
    in insertion order, the record after the last entry is the record of
    that entry alone merged over the record of the entries before it: the
    last entry overwrites [company_id] and the fields it writes itself, and
    every other field set by an earlier entry survives. For the mapping
    of a valid 23-byte iBeacon under 0x004C followed by 3 bytes under
    0x0999, the record has [company_id] 0x0999 and the [raw_data] of the 3
    bytes, together with the iBeacon fields of the first entry. *)
Theorem last_entry_merges :
  (∀ (prefix : list (N * bytes)) (e : N * bytes),
     ∃ r0 rl, Scanner.parse_manufacturer_data prefix = Return r0
       ∧ Scanner.parse_manufacturer_data [e] = Return rl
       ∧ Scanner.parse_manufacturer_data (prefix ++ [e]) = Return (rl ∪ r0)
       ∧ rl !! "company_id" = Some (VStr ("0x" +:+ format_04X e.1))) ∧
  (∀ (prefix : list (N * bytes)) (e : N * bytes),
     ∃ r0 rl, ScannerCsv.parse_manufacturer_data prefix = Return r0
       ∧ ScannerCsv.parse_manufacturer_data [e] = Return rl
       ∧ ScannerCsv.parse_manufacturer_data (prefix ++ [e]) = Return (rl ∪ r0)
       ∧ rl !! "company_id" = Some (VStr ("0x" +:+ format_04X e.1))) ∧
  (∃ r, Scanner.parse_manufacturer_data two_entries = Return r
        ∧ r !! "company_id" = Some (VStr "0x0999")
        ∧ r !! "raw_data" = Some (VStr "010203")
        ∧ r !! "type" = Some (VStr "iBeacon")
        ∧ r !! "uuid" = Some (VStr "e2c56db5-dffb-48d2-b060-d0f5a71096e0")
        ∧ r !! "major" = Some (VInt 1)
        ∧ r !! "minor" = Some (VInt 2)
        ∧ r !! "tx_power" = Some (VInt (-59))).
Proof.
  split; [|split].
  - intros prefix e. eexists _, _.
    rewrite !scanner_dispatch_fold, fold_left_app. cbn [fold_left].
    repeat split.
    + apply f_equal, dispatch_step_union.
    + destruct (dispatch_step_company_id Scanner.APPLE_COMPANY_ID
        Scanner.parse_ibeacon ∅ e) as [H|(d & Hd & [v Hv])]; [done|].
      by rewrite (scanner_ibeacon_no_company_id _ _ Hd) in Hv.
  - intros prefix e. eexists _, _.
    rewrite !csv_dispatch_fold, fold_left_app. cbn [fold_left].
    repeat split.
    + apply f_equal, dispatch_step_union.
    + destruct (dispatch_step_company_id ScannerCsv.APPLE_COMPANY_ID
        ScannerCsv.parse_ibeacon ∅ e) as [H|(d & Hd & [v Hv])]; [done|].
      by rewrite (csv_ibeacon_no_company_id _ _ Hd) in Hv.
  - eexists. split; [apply scanner_dispatch_fold|].
    repeat split; vm_compute; reflexivity.
Qed.

(** C6 as the specification states it fails: in the record of the
    two-entry mapping the [uuid] of the first entry survives, while the
    last entry alone sets none. *)
Lemma two_entries_keep_ibeacon :
  ¬ reflects_only_last Scanner.parse_manufacturer_data two_entries.
Proof.
  intros H.
  specialize (H _ _ _ eq_refl (scanner_dispatch_fold _)
    (scanner_dispatch_fold _) "uuid").
  vm_compute in H. discriminate.
Qed.

(** ** The parsers never raise *)

Lemma try_except_returns {A} (body : outcome A) (a : A) :
  ∃ r, try_except body (fun _ => mret a) = Return r.
Proof. destruct body as [r|e]; simpl; eauto. Qed.

(** C7. For every input byte sequence, the empty one included, the iBeacon
    parser and the Eddystone parser of both scanners return: each call
    yields a structured result or the no-result value [None], and no
    exception leaves the parser. *)
Theorem parsers_never_raise (data : bytes) :
  (∃ r, Scanner.parse_ibeacon data = Return r) ∧
  (∃ r, Scanner.parse_eddystone data = Return r) ∧
  (∃ r, ScannerCsv.parse_ibeacon data = Return r) ∧
  (∃ r, ScannerCsv.parse_eddystone data = Return r) ∧
  Scanner.parse_ibeacon [] = Return None ∧
  Scanner.parse_eddystone [] = Return None ∧
  ScannerCsv.parse_ibeacon [] = Return None ∧
  ScannerCsv.parse_eddystone [] = Return None.
Proof.
  repeat split; try apply try_except_returns; reflexivity.
Qed.

(** C8. Whenever a decode result carries [raw_data], it is the hex
    encoding of the buffer it was decoded from, all of its characters are
    lowercase hex digits, and decoding it gives the buffer back byte for
    byte. This holds of the records of both parsers of both scanners, and
    of the [raw_data] of a dispatcher record, which is the hex of the
    payload of one of the entries. *)
Theorem raw_hex_round_trip :
  (∀ (data : bytes) (r : dict),
     Scanner.parse_ibeacon data = Return (Some r)
     ∨ Scanner.parse_eddystone data = Return (Some r)
     ∨ ScannerCsv.parse_ibeacon data = Return (Some r)
     ∨ ScannerCsv.parse_eddystone data = Return (Some r) →
     r !! "raw_data" = Some (VStr (bytes_hex data))
     ∧ all_lower_hex (bytes_hex data) = true
     ∧ bytes_fromhex (bytes_hex data) = Some data) ∧
  (∀ (mfg_data : list (N * bytes)) (r : dict) (v : value),
     Scanner.parse_manufacturer_data mfg_data = Return r
     ∨ ScannerCsv.parse_manufacturer_data mfg_data = Return r →
     r !! "raw_data" = Some v →
     ∃ cid data, (cid, data) ∈ mfg_data
       ∧ v = VStr (bytes_hex data)
       ∧ all_lower_hex (bytes_hex data) = true
       ∧ bytes_fromhex (bytes_hex data) = Some data).
Proof.
  split.
  - intros data r H.
    split; [|split; [apply hex_is_lowercase|apply fromhex_hex]].
    destruct H as [H|[H|[H|H]]].
    + by apply scanner_ibeacon_raw.
    + by apply scanner_eddystone_raw.
    + by apply csv_ibeacon_raw.
    + by apply csv_eddystone_raw.
  - intros mfg_data r v H Hv.
    assert (∃ cid data, (cid, data) ∈ mfg_data ∧ v = VStr (bytes_hex data))
      as (cid & data & Hin & ->).
    { destruct H as [H|H].
      - rewrite scanner_dispatch_fold in H. injection H as <-.
        apply fold_raw_source in Hv as [Hv|Hv];
          [by rewrite lookup_empty in Hv|done|apply scanner_ibeacon_raw].
      - rewrite csv_dispatch_fold in H. injection H as <-.
        apply fold_raw_source in Hv as [Hv|Hv];
          [by rewrite lookup_empty in Hv|done|apply csv_ibeacon_raw]. }
    exists cid, data.
    repeat split; [done|apply hex_is_lowercase|apply fromhex_hex].
Qed.

Lemma raw_hex_round_trip_witness :
  ∃ r, Scanner.parse_ibeacon ibeacon_sample = Return (Some r)
       ∧ r !! "raw_data" = Some (VStr (bytes_hex ibeacon_sample))
       ∧ all_lower_hex (bytes_hex ibeacon_sample) = true
       ∧ bytes_fromhex (bytes_hex ibeacon_sample) = Some ibeacon_sample.
Proof.
  eexists. split; [reflexivity|].
  apply (proj1 raw_hex_round_trip ibeacon_sample). left. reflexivity.
Defined.

(** C9. For every service-data buffer whose first byte is 0x10 and whose
    length is at least 3, the URL decode of [ble_scanner.py] succeeds and
    returns the byte at offset 2 unchanged as [url_scheme], whatever its
    value: every value from 0 to 255, those above 3 included, is the
    scheme byte of such a buffer and is surfaced as it is. *)
Theorem url_scheme_unvalidated :
  (∀ data : bytes, byte_at data 0 = 0x10%Z → 3 ≤ length data →
     ∃ r, Scanner.parse_eddystone data = Return (Some r)
          ∧ r !! "url_scheme" = Some (VInt (byte_at data 2))) ∧
  (∀ v : Z, (0 ≤ v ≤ 255)%Z →
     ∃ data r, byte_at data 0 = 0x10%Z ∧ 3 ≤ length data
       ∧ byte_at data 2 = v
       ∧ Scanner.parse_eddystone data = Return (Some r)
       ∧ r !! "url_scheme" = Some (VInt v)).
Proof.
  assert (∀ data : bytes, byte_at data 0 = 0x10%Z → 3 ≤ length data →
     ∃ r, Scanner.parse_eddystone data = Return (Some r)
          ∧ r !! "url_scheme" = Some (VInt (byte_at data 2))) as Hall.
  { intros data Hb H.
    destruct (scanner_url_long _ Hb H) as (r & Hr & _ & _ & _ & _ & _ & L & _).
    eauto. }
  split; [exact Hall|].
  intros v Hv.
  destruct (Byte.of_N (Z.to_N v)) as [s|] eqn:Hs;
    [|apply Byte.of_N_None_iff in Hs; lia].
  apply Byte.to_of_N in Hs.
  assert (byte_val s = v) as Hsv by (unfold byte_val; rewrite Hs; lia).
  destruct (Hall [Byte.x10; Byte.x00; s]) as (r & Hr & Hscheme);
    [reflexivity|simpl; lia|].
  exists [Byte.x10; Byte.x00; s], r.
  change (byte_at [Byte.x10; Byte.x00; s] 2) with (byte_val s) in *.
  rewrite Hsv in *. repeat split; [simpl; lia|done|done].
Qed.

Lemma url_scheme_unvalidated_witness :
  ∃ r, Scanner.parse_eddystone url_sample = Return (Some r)
       ∧ r !! "url_scheme" = Some (VInt 255).
Proof.
  apply (proj1 url_scheme_unvalidated url_sample); [reflexivity|simpl; lia].
Defined.

(** C10. Two manufacturer-data buffers of at least 23 bytes that agree on
    their first 23 bytes decode to iBeacon records that agree on every
    field but [raw_data]; two TLM buffers (first byte 0x20) of at least 14
    bytes that agree on their first 14 bytes decode to records that agree
    on every field but [raw_data]. Bytes after the fixed prefix reach no
    structured field. *)
Theorem trailing_bytes_ignored :
  (∀ d1 d2 : bytes, 23 ≤ length d1 → 23 ≤ length d2 →
     take 23 d1 = take 23 d2 →
     ∃ r1 r2, Scanner.parse_ibeacon d1 = Return (Some r1)
       ∧ Scanner.parse_ibeacon d2 = Return (Some r2)
       ∧ ∀ k, k ≠ "raw_data" → r1 !! k = r2 !! k) ∧
  (∀ d1 d2 : bytes, byte_at d1 0 = 0x20%Z → byte_at d2 0 = 0x20%Z →
     14 ≤ length d1 → 14 ≤ length d2 → take 14 d1 = take 14 d2 →
     ∃ r1 r2, Scanner.parse_eddystone d1 = Return (Some r1)
       ∧ Scanner.parse_eddystone d2 = Return (Some r2)
       ∧ ∀ k, k ≠ "raw_data" → r1 !! k = r2 !! k).
Proof.
  split.
  - apply scanner_ibeacon_prefix.
  - intros d1 d2 Hb1 _. by apply scanner_tlm_prefix.
Qed.

Lemma trailing_bytes_ignored_witness :
  ∃ r1 r2,
    Scanner.parse_ibeacon (ibeacon_sample ++ [Byte.x01]) = Return (Some r1)
    ∧ Scanner.parse_ibeacon (ibeacon_sample ++ [Byte.xff; Byte.xfe])
      = Return (Some r2)
    ∧ ∀ k, k ≠ "raw_data" → r1 !! k = r2 !! k.
Proof.
  apply (proj1 trailing_bytes_ignored); [simpl; lia|simpl; lia|reflexivity].
Defined.

(** ** Further properties: keys and ranges of the parser records *)

Section key_lemmas.

Lemma items_get_is_Some k (items : list (string * value)) acc :
  is_Some (items_get k items acc) ↔ is_Some acc ∨ k ∈ items.*1.
Proof.
  revert acc. induction items as [|[k' v] items IH]; intros acc; simpl.
  - split; [by left|]. intros [H|H]; [done|by apply elem_of_nil in H].
  - rewrite IH, elem_of_cons. destruct (String.eqb_spec k' k) as [->|Hne].
    + split; [by right; left|]. intros _. left. by eexists.
    + split; [intros [H|H]; auto|]. intros [H|[H|H]]; auto. congruence.
Qed.

(** The keys of a dictionary display are the keys of its items. *)
Lemma dict_of_is_Some k (items : list (string * value)) :
  is_Some (dict_of items !! k) ↔ k ∈ items.*1.
Proof.
  rewrite dict_of_lookup, items_get_is_Some.
  split; [intros [[? H]|H]; [discriminate|done]|by right].
Qed.

Lemma dict_update_is_Some k (d other : dict) :
  is_Some (dict_update d other !! k)
  ↔ is_Some (other !! k) ∨ is_Some (d !! k).
Proof. unfold dict_update. apply lookup_union_is_Some. Qed.

End key_lemmas.

Section range_lemmas.

Local Open Scope Z_scope.

Lemma byte_at_range (data : bytes) (i : nat) : 0 ≤ byte_at data i < 256.
Proof.
  unfold byte_at. destruct (data !! i) as [x|]; simpl; [|lia].
  unfold byte_val. pose proof (Byte.to_N_bounded x). lia.
Qed.

Lemma u16_be_at_range (data : bytes) (i : nat) :
  0 ≤ u16_be_at data i ≤ 65535.
Proof.
  unfold u16_be_at.
  pose proof (byte_at_range data i). pose proof (byte_at_range data (i + 1)).
  lia.
Qed.

Lemma u32_be_at_range (data : bytes) (i : nat) :
  0 ≤ u32_be_at data i ≤ 4294967295.
Proof.
  unfold u32_be_at.
  pose proof (byte_at_range data i). pose proof (byte_at_range data (i + 1)).
  pose proof (byte_at_range data (i + 2)).
  pose proof (byte_at_range data (i + 3)).
  lia.
Qed.

Lemma s8_at_range (data : bytes) (i : nat) : -128 ≤ s8_at data i ≤ 127.
Proof.
  unfold s8_at. pose proof (byte_at_range data i).
  destruct (Z.ltb_spec (byte_at data i) 128); lia.
Qed.

End range_lemmas.

Lemma hex_text_length (data : bytes) :
  String.length (bytes_hex data) = 2 * length data.
Proof.
  induction data as [|x data IH]; [reflexivity|].
  change (String.length (bytes_hex (x :: data)))
    with (S (S (String.length (bytes_hex data)))).
  rewrite IH. simpl. lia.
Qed.

(** The keys of an iBeacon record. *)
Lemma scanner_ibeacon_keys (mfg_data : bytes) (r : dict) k :
  Scanner.parse_ibeacon mfg_data = Return (Some r) →
  is_Some (r !! k) ↔ k ∈ ibeacon_keys "type".
Proof.
  intros Hr. pose proof (scanner_ibeacon_some _ _ Hr) as H.
  split_bytes mfg_data H 23. injection Hr as <-.
  apply dict_of_is_Some.
Qed.

Lemma csv_ibeacon_keys (mfg_data : bytes) (r : dict) k :
  ScannerCsv.parse_ibeacon mfg_data = Return (Some r) →
  is_Some (r !! k) ↔ k ∈ ibeacon_keys "beacon_type".
Proof.
  intros Hr. pose proof (csv_ibeacon_some _ _ Hr) as H.
  split_bytes mfg_data H 23. injection Hr as <-.
  apply dict_of_is_Some.
Qed.

(** X1. The iBeacon parser of either scanner returns a record exactly when
    the buffer has at least 23 bytes, and no result otherwise; a record
    holds the six keys of the display and no other. *)
Theorem ibeacon_record_exactly (mfg_data : bytes) :
  ((∃ r, Scanner.parse_ibeacon mfg_data = Return (Some r))
     ↔ 23 ≤ length mfg_data) ∧
  (Scanner.parse_ibeacon mfg_data = Return None ↔ length mfg_data < 23) ∧
  ((∃ r, ScannerCsv.parse_ibeacon mfg_data = Return (Some r))
     ↔ 23 ≤ length mfg_data) ∧
  (ScannerCsv.parse_ibeacon mfg_data = Return None ↔ length mfg_data < 23) ∧
  (∀ r k, Scanner.parse_ibeacon mfg_data = Return (Some r) →
     (is_Some (r !! k) ↔ k ∈ ibeacon_keys "type")) ∧
  (∀ r k, ScannerCsv.parse_ibeacon mfg_data = Return (Some r) →
     (is_Some (r !! k) ↔ k ∈ ibeacon_keys "beacon_type")).
Proof.
  repeat split.
  - intros [r Hr]. by eapply scanner_ibeacon_some.
  - intros H. destruct (scanner_ibeacon_long _ H) as (r & Hr & _). eauto.
  - intros Hn. destruct (Nat.lt_ge_cases (length mfg_data) 23) as [|H]; [done|].
    destruct (scanner_ibeacon_long _ H) as (r & Hr & _). congruence.
  - apply scanner_ibeacon_short.
  - intros [r Hr]. by eapply csv_ibeacon_some.
  - intros H. destruct (csv_ibeacon_long _ H) as (r & Hr & _). eauto.
  - intros Hn. destruct (Nat.lt_ge_cases (length mfg_data) 23) as [|H]; [done|].
    destruct (csv_ibeacon_long _ H) as (r & Hr & _). congruence.
  - apply csv_ibeacon_short.
  - by apply (scanner_ibeacon_keys mfg_data r k).
  - by apply (scanner_ibeacon_keys mfg_data r k).
  - by apply (csv_ibeacon_keys mfg_data r k).
  - by apply (csv_ibeacon_keys mfg_data r k).
Qed.

Lemma ibeacon_record_exactly_witness :
  (∃ r, Scanner.parse_ibeacon ibeacon_sample = Return (Some r))
  ∧ Scanner.parse_ibeacon (take 22 ibeacon_sample) = Return None.
Proof.
  split.
  - apply (proj1 (ibeacon_record_exactly ibeacon_sample)). simpl. lia.
  - apply (proj1 (proj2 (ibeacon_record_exactly (take 22 ibeacon_sample)))).
    simpl. lia.
Defined.

(** X2. In an iBeacon record of either scanner, [major] and [minor] are
    integers from 0 to 65535 and [tx_power] is an integer from -128 to
    127. *)
Theorem ibeacon_field_ranges (mfg_data : bytes) (r : dict) :
  Scanner.parse_ibeacon mfg_data = Return (Some r)
  ∨ ScannerCsv.parse_ibeacon mfg_data = Return (Some r) →
  ∃ major minor tx_power : Z,
    r !! "major" = Some (VInt major) ∧ (0 ≤ major ≤ 65535)%Z ∧
    r !! "minor" = Some (VInt minor) ∧ (0 ≤ minor ≤ 65535)%Z ∧
    r !! "tx_power" = Some (VInt tx_power) ∧ (-128 ≤ tx_power ≤ 127)%Z.
Proof.
  intros Hr.
  assert (ibeacon_layout mfg_data r) as (_ & Hma & Hmi & Htx).
  { destruct Hr as [Hr|Hr].
    - destruct (scanner_ibeacon_long mfg_data) as (r' & Hr' & _ & _ & _ & L);
        [by eapply scanner_ibeacon_some|]. congruence.
    - destruct (csv_ibeacon_long mfg_data) as (r' & Hr' & _ & _ & _ & L);
        [by eapply csv_ibeacon_some|]. congruence. }
  eexists _, _, _. repeat split; try done;
    first [apply u16_be_at_range | apply s8_at_range].
Qed.

Lemma ibeacon_field_ranges_witness :
  ∃ major minor tx_power : Z,
    Scanner.parse_ibeacon ibeacon_sample
      = Return (Some (dict_of [
          ("type", VStr "iBeacon");
          ("uuid", VStr "e2c56db5-dffb-48d2-b060-d0f5a71096e0");
          ("major", VInt 1); ("minor", VInt 2); ("tx_power", VInt (-59));
          ("raw_data",
           VStr "0215e2c56db5dffb48d2b060d0f5a71096e000010002c5")]))
    ∧ (0 ≤ major ≤ 65535)%Z ∧ (0 ≤ minor ≤ 65535)%Z
    ∧ (-128 ≤ tx_power ≤ 127)%Z.
Proof.
  destruct (ibeacon_field_ranges ibeacon_sample _ (or_introl eq_refl))
    as (major & minor & tx & _ & H1 & _ & H2 & _ & H3).
  exists major, minor, tx. split; [reflexivity|]. auto.
Defined.

(** X3. The iBeacon parsers never look at the first two bytes: two
    buffers of at least 23 bytes that differ only there decode to records
    that agree on every field but [raw_data], so an Apple payload with any
    sub-type prefix is decoded as an iBeacon. *)
Theorem ibeacon_prefix_unchecked (p0 p1 q0 q1 : byte) (rest : bytes) :
  21 ≤ length rest →
  (∃ r1 r2, Scanner.parse_ibeacon (p0 :: p1 :: rest) = Return (Some r1)
     ∧ Scanner.parse_ibeacon (q0 :: q1 :: rest) = Return (Some r2)
     ∧ r1 !! "type" = Some (VStr "iBeacon")
     ∧ ∀ k, k ≠ "raw_data" → r1 !! k = r2 !! k) ∧
  (∃ r1 r2, ScannerCsv.parse_ibeacon (p0 :: p1 :: rest) = Return (Some r1)
     ∧ ScannerCsv.parse_ibeacon (q0 :: q1 :: rest) = Return (Some r2)
     ∧ r1 !! "beacon_type" = Some (VStr "iBeacon")
     ∧ ∀ k, k ≠ "raw_data" → r1 !! k = r2 !! k).
Proof.
  intros H. split_bytes rest H 21.
  split; eexists _, _; (split; [reflexivity|]); (split; [reflexivity|]);
    (split; [dict_lookup|]); intros k Hk; dict_lookup_any;
    (destruct (String.eqb_spec "raw_data" k); [congruence|reflexivity]).
Qed.

Lemma ibeacon_prefix_unchecked_witness :
  ∃ r1 r2,
    Scanner.parse_ibeacon (Byte.x02 :: Byte.x15 :: drop 2 ibeacon_sample)
      = Return (Some r1)
    ∧ Scanner.parse_ibeacon (Byte.x10 :: Byte.x05 :: drop 2 ibeacon_sample)
      = Return (Some r2)
    ∧ r1 !! "type" = Some (VStr "iBeacon")
    ∧ ∀ k, k ≠ "raw_data" → r1 !! k = r2 !! k.
Proof.
  apply (ibeacon_prefix_unchecked Byte.x02 Byte.x15 Byte.x10 Byte.x05
    (drop 2 ibeacon_sample)).
  simpl. lia.
Defined.

(** ** Further properties: the Eddystone parsers *)

Lemma scanner_eddystone_unknown (x : byte) (data : bytes) :
  byte_val x ≠ 0x00%Z → byte_val x ≠ 0x10%Z → byte_val x ≠ 0x20%Z →
  Scanner.parse_eddystone (x :: data)
  = Return (Some (dict_of [
      ("type", VStr "Eddystone");
      ("frame_type", VStr (py_hex (byte_val x)));
      ("raw_data", VStr (bytes_hex (x :: data)))])).
Proof.
  intros H0 H1 H2.
  unfold Scanner.parse_eddystone, Scanner.parse_eddystone_body.
  change (getitem (x :: data) 0) with (Return (byte_val x)).
  unfold mbind, outcome_bind.
  apply Z.eqb_neq in H0, H1, H2. rewrite H0, H1, H2. reflexivity.
Qed.

Lemma csv_eddystone_unknown (x : byte) (data : bytes) :
  byte_val x ≠ 0x00%Z → byte_val x ≠ 0x10%Z → byte_val x ≠ 0x20%Z →
  ScannerCsv.parse_eddystone (x :: data)
  = Return (Some (dict_of [
      ("beacon_type", VStr "Eddystone");
      ("frame_type", VStr (py_hex (byte_val x)));
      ("raw_data", VStr (bytes_hex (x :: data)))])).
Proof.
  intros H0 H1 H2.
  unfold ScannerCsv.parse_eddystone, ScannerCsv.parse_eddystone_body.
  change (getitem (x :: data) 0) with (Return (byte_val x)).
  unfold mbind, outcome_bind.
  apply Z.eqb_neq in H0, H1, H2. rewrite H0, H1, H2. reflexivity.
Qed.

Lemma scanner_tlm_short (data : bytes) :
  byte_at data 0 = 0x20%Z → length data < 14 →
  Scanner.parse_eddystone data = Return None.
Proof.
  intros Hb H. destruct data as [|x data]; [discriminate Hb|].
  frame_byte Hb 0x20%N Byte.x20.
  do 13 (destruct data as [|? data]; [reflexivity|]).
  simpl in H. lia.
Qed.

Lemma csv_tlm_short (data : bytes) :
  byte_at data 0 = 0x20%Z → length data < 6 →
  ScannerCsv.parse_eddystone data = Return None.
Proof.
  intros Hb H. destruct data as [|x data]; [discriminate Hb|].
  frame_byte Hb 0x20%N Byte.x20.
  do 5 (destruct data as [|? data]; [reflexivity|]).
  simpl in H. lia.
Qed.

Lemma uid_short (data : bytes) :
  byte_at data 0 = 0x00%Z → length data < 2 → data ≠ [] →
  Scanner.parse_eddystone data = Return None
  ∧ ScannerCsv.parse_eddystone data = Return None.
Proof.
  intros Hb H Hne. destruct data as [|x [|y data]];
    [done|by apply uid_one_byte|simpl in H; lia].
Qed.

(** X4. The Eddystone parser of [ble_scanner.py] gives no result exactly
    for the empty buffer, a UID frame (first byte 0x00) of 1 byte, a URL
    frame (0x10) of fewer than 3 bytes and a TLM frame (0x20) of fewer
    than 14 bytes; every other buffer yields a record. *)
Theorem scanner_eddystone_none_iff (data : bytes) :
  (Scanner.parse_eddystone data = Return None
     ↔ scanner_eddystone_rejects data) ∧
  ((∃ r, Scanner.parse_eddystone data = Return (Some r))
     ↔ ¬ scanner_eddystone_rejects data).
Proof.
  assert (scanner_eddystone_rejects data →
          Scanner.parse_eddystone data = Return None) as Hrej.
  { intros [->|[[Hb H]|[[Hb H]|[Hb H]]]].
    - reflexivity.
    - destruct data as [|x data]; [reflexivity|].
      assert (x :: data ≠ []) as Hne by discriminate.
      exact (proj1 (uid_short _ Hb H Hne)).
    - exact (scanner_url_short _ Hb H).
    - exact (scanner_tlm_short _ Hb H). }
  assert (¬ scanner_eddystone_rejects data →
          ∃ r, Scanner.parse_eddystone data = Return (Some r)) as Hacc.
  { intros Hn. destruct data as [|x data]; [destruct Hn; by left|].
    destruct (decide (byte_val x = 0x00%Z)) as [H0|H0].
    { destruct (scanner_uid_two (x :: data) H0) as (r & Hr & _); [|eauto].
      destruct (Nat.lt_ge_cases (length (x :: data)) 2); [|done].
      destruct Hn. right; left. done. }
    destruct (decide (byte_val x = 0x10%Z)) as [H1|H1].
    { destruct (scanner_url_long (x :: data) H1) as (r & Hr & _); [|eauto].
      destruct (Nat.lt_ge_cases (length (x :: data)) 3); [|done].
      destruct Hn. right; right; left. done. }
    destruct (decide (byte_val x = 0x20%Z)) as [H2|H2].
    { destruct (scanner_tlm_long (x :: data) H2) as (r & Hr & _); [|eauto].
      destruct (Nat.lt_ge_cases (length (x :: data)) 14); [|done].
      destruct Hn. right; right; right. done. }
    eexists. by apply scanner_eddystone_unknown. }
  split; split.
  - intros Hnone.
    destruct (decide (scanner_eddystone_rejects data)) as [|Hn]; [done|].
    destruct (Hacc Hn) as [r Hr]. congruence.
  - exact Hrej.
  - intros [r Hr] Hn. rewrite (Hrej Hn) in Hr. discriminate.
  - exact Hacc.
Qed.

(** X5. The Eddystone parser of [ble_scanner_to_csv.py] gives no result
    exactly for the empty buffer, a UID or URL frame of 1 byte and a TLM
    frame of fewer than 6 bytes; every other buffer yields a record. *)
Theorem csv_eddystone_none_iff (data : bytes) :
  (ScannerCsv.parse_eddystone data = Return None
     ↔ csv_eddystone_rejects data) ∧
  ((∃ r, ScannerCsv.parse_eddystone data = Return (Some r))
     ↔ ¬ csv_eddystone_rejects data).
Proof.
  assert (csv_eddystone_rejects data →
          ScannerCsv.parse_eddystone data = Return None) as Hrej.
  { intros [->|[[Hb H]|[[Hb H]|[Hb H]]]].
    - reflexivity.
    - destruct data as [|x data]; [reflexivity|].
      assert (x :: data ≠ []) as Hne by discriminate.
      exact (proj2 (uid_short _ Hb H Hne)).
    - exact (csv_url_short _ Hb H).
    - exact (csv_tlm_short _ Hb H). }
  assert (¬ csv_eddystone_rejects data →
          ∃ r, ScannerCsv.parse_eddystone data = Return (Some r)) as Hacc.
  { intros Hn. destruct data as [|x data]; [destruct Hn; by left|].
    destruct (decide (byte_val x = 0x00%Z)) as [H0|H0].
    { destruct (csv_uid_two (x :: data) H0) as (r & Hr & _); [|eauto].
      destruct (Nat.lt_ge_cases (length (x :: data)) 2); [|done].
      destruct Hn. right; left. done. }
    destruct (decide (byte_val x = 0x10%Z)) as [H1|H1].
    { destruct (csv_url_long (x :: data) H1) as (r & Hr & _); [|eauto].
      destruct (Nat.lt_ge_cases (length (x :: data)) 2); [|done].
      destruct Hn. right; right; left. done. }
    destruct (decide (byte_val x = 0x20%Z)) as [H2|H2].
    { destruct (csv_tlm_long (x :: data) H2) as (r & Hr & _); [|eauto].
      destruct (Nat.lt_ge_cases (length (x :: data)) 6); [|done].
      destruct Hn. right; right; right. done. }
    eexists. exact (csv_eddystone_unknown x data H0 H1 H2). }
  split; split.
  - intros Hnone.
    destruct (decide (csv_eddystone_rejects data)) as [|Hn]; [done|].
    destruct (Hacc Hn) as [r Hr]. congruence.
  - exact Hrej.
  - intros [r Hr] Hn. rewrite (Hrej Hn) in Hr. discriminate.
  - exact Hacc.
Qed.

Lemma py_hex_byte (x : byte) :
  py_hex (byte_val x) = "0x" +:+ unpadded_hex (Byte.to_N x)
  ∧ all_lower_hex (unpadded_hex (Byte.to_N x)) = true
  ∧ hex_value (unpadded_hex (Byte.to_N x)) = Some (Byte.to_N x).
Proof. destruct x; repeat split. Qed.

(** X6. A non-empty buffer whose first byte is none of 0x00, 0x10 and 0x20
    is never rejected: either Eddystone parser returns a record with
    exactly three keys, the kind ["Eddystone"], the hex of the whole
    buffer, and [frame_type] the text [0x] followed by the lowercase hex
    digits of the first byte without zero padding: one digit for a byte
    below 16, two digits from 16 on; the digits read back as that byte. *)
Theorem eddystone_unknown_frame (x : byte) (data : bytes) :
  byte_val x ≠ 0x00%Z → byte_val x ≠ 0x10%Z → byte_val x ≠ 0x20%Z →
  let digits := unpadded_hex (Byte.to_N x) in
  String.length digits = (if (Byte.to_N x <? 16)%N then 1 else 2)
  ∧ all_lower_hex digits = true
  ∧ hex_value digits = Some (Byte.to_N x)
  ∧ (∃ r, Scanner.parse_eddystone (x :: data) = Return (Some r)
       ∧ r !! "type" = Some (VStr "Eddystone")
       ∧ r !! "frame_type" = Some (VStr ("0x" +:+ digits))
       ∧ r !! "raw_data" = Some (VStr (bytes_hex (x :: data)))
       ∧ ∀ k, is_Some (r !! k) ↔ k ∈ ["type"; "frame_type"; "raw_data"])
  ∧ (∃ r, ScannerCsv.parse_eddystone (x :: data) = Return (Some r)
       ∧ r !! "beacon_type" = Some (VStr "Eddystone")
       ∧ r !! "frame_type" = Some (VStr ("0x" +:+ digits))
       ∧ r !! "raw_data" = Some (VStr (bytes_hex (x :: data)))
       ∧ ∀ k, is_Some (r !! k)
              ↔ k ∈ ["beacon_type"; "frame_type"; "raw_data"]).
Proof.
  intros H0 H1 H2. cbv zeta.
  destruct (py_hex_byte x) as (Hd & Hlow & Hval).
  split; [unfold unpadded_hex; by destruct (Byte.to_N x <? 16)%N|].
  split; [done|]. split; [done|].
  split; eexists.
  - split; [exact (scanner_eddystone_unknown x data H0 H1 H2)|].
    rewrite Hd. do 3 (split; [by dict_lookup|]).
    intros k. apply dict_of_is_Some.
  - split; [exact (csv_eddystone_unknown x data H0 H1 H2)|].
    rewrite Hd. do 3 (split; [by dict_lookup|]).
    intros k. apply dict_of_is_Some.
Qed.

Lemma eddystone_unknown_frame_witness :
  (∃ r, Scanner.parse_eddystone [Byte.x0a; Byte.x01] = Return (Some r)
        ∧ r !! "frame_type" = Some (VStr "0xa"))
  ∧ (∃ r, Scanner.parse_eddystone [Byte.x30; Byte.x01] = Return (Some r)
        ∧ r !! "frame_type" = Some (VStr "0x30")).
Proof.
  split.
  - destruct (eddystone_unknown_frame Byte.x0a [Byte.x01])
      as (_ & _ & _ & (r & Hr & _ & Hf & _) & _);
      [discriminate|discriminate|discriminate|].
    exists r. split; [exact Hr|exact Hf].
  - destruct (eddystone_unknown_frame Byte.x30 [Byte.x01])
      as (_ & _ & _ & (r & Hr & _ & Hf & _) & _);
      [discriminate|discriminate|discriminate|].
    exists r. split; [exact Hr|exact Hf].
Defined.

Lemma hex_at_length (data : bytes) (i n : nat) :
  String.length (hex_at data i n) = 2 * (n `min` (length data - i)).
Proof.
  unfold hex_at. by rewrite hex_text_length, length_take, length_drop.
Qed.

(** X7. For a UID frame (first byte 0x00) of at least 2 bytes, either
    Eddystone parser returns as [namespace] the hex of the bytes the
    buffer has at offsets 2-11 and as [instance] the hex of the bytes it
    has at offsets 12-17, however few: [namespace] has two hex digits per
    byte present, up to 20, and [instance] up to 12; [instance] has its 12
    digits exactly when the buffer has 18 bytes or more. *)
Theorem uid_field_lengths (data : bytes) :
  byte_at data 0 = 0x00%Z → 2 ≤ length data →
  let namespace := bytes_hex (take 10 (drop 2 data)) in
  let instance := bytes_hex (take 6 (drop 12 data)) in
  String.length namespace = 2 * (10 `min` (length data - 2))
  ∧ String.length instance = 2 * (6 `min` (length data - 12))
  ∧ (String.length instance = 12 ↔ 18 ≤ length data)
  ∧ (∃ r, Scanner.parse_eddystone data = Return (Some r)
       ∧ r !! "namespace" = Some (VStr namespace)
       ∧ r !! "instance" = Some (VStr instance))
  ∧ (∃ r, ScannerCsv.parse_eddystone data = Return (Some r)
       ∧ r !! "namespace" = Some (VStr namespace)
       ∧ r !! "instance" = Some (VStr instance)).
Proof.
  intros Hb H. cbv zeta.
  destruct (scanner_uid_two _ Hb H) as (r1 & Hr1 & _ & _ & _ & _ & Hn1 & Hi1).
  destruct (csv_uid_two _ Hb H) as (r2 & Hr2 & _ & _ & _ & Hn2 & Hi2).
  fold (hex_at data 2 10). fold (hex_at data 12 6).
  rewrite !hex_at_length.
  split; [done|]. split; [done|]. split; [lia|]. eauto 10.
Qed.

Lemma uid_field_lengths_witness :
  ∃ r, Scanner.parse_eddystone uid_short_sample = Return (Some r)
       ∧ r !! "namespace" = Some (VStr "0102030405060708090a")
       ∧ r !! "instance" = Some (VStr "a1a2a3a4a5").
Proof.
  destruct (uid_field_lengths uid_short_sample)
    as (_ & _ & _ & (r & Hr & Hn & Hi) & _); [reflexivity|simpl; lia|].
  exists r. split; [exact Hr|]. split; [exact Hn|exact Hi].
Defined.

(** X8. In a TLM record of [ble_scanner.py], [version] is an integer from
    0 to 255, [battery_voltage] from 0 to 65535, and [advertising_count]
    and [seconds_since_boot] from 0 to 4294967295; in a TLM record of
    [ble_scanner_to_csv.py], [battery_voltage] is from 0 to 65535. *)
Theorem tlm_field_ranges (data : bytes) :
  byte_at data 0 = 0x20%Z →
  (∀ r, Scanner.parse_eddystone data = Return (Some r) →
     ∃ version battery_voltage advertising_count seconds_since_boot : Z,
       r !! "version" = Some (VInt version)
       ∧ (0 ≤ version ≤ 255)%Z
       ∧ r !! "battery_voltage" = Some (VInt battery_voltage)
       ∧ (0 ≤ battery_voltage ≤ 65535)%Z
       ∧ r !! "advertising_count" = Some (VInt advertising_count)
       ∧ (0 ≤ advertising_count ≤ 4294967295)%Z
       ∧ r !! "seconds_since_boot" = Some (VInt seconds_since_boot)
       ∧ (0 ≤ seconds_since_boot ≤ 4294967295)%Z) ∧
  (∀ r, ScannerCsv.parse_eddystone data = Return (Some r) →
     ∃ battery_voltage : Z,
       r !! "battery_voltage" = Some (VInt battery_voltage)
       ∧ (0 ≤ battery_voltage ≤ 65535)%Z).
Proof.
  intros Hb. split; intros r Hr.
  - destruct (Nat.lt_ge_cases (length data) 14) as [Hlt|Hge].
    { rewrite (scanner_tlm_short _ Hb Hlt) in Hr. discriminate. }
    destruct (scanner_tlm_long _ Hb Hge)
      as (r' & Hr' & _ & _ & _ & _ & Hv & Hbv & _ & Hadv & Hsec).
    rewrite Hr' in Hr. injection Hr as <-.
    eexists _, _, _, _. repeat split; try done;
      try apply u16_be_at_range; try apply u32_be_at_range;
      pose proof (byte_at_range data 1); lia.
  - destruct (Nat.lt_ge_cases (length data) 6) as [Hlt|Hge].
    { rewrite (csv_tlm_short _ Hb Hlt) in Hr. discriminate. }
    destruct (csv_tlm_long _ Hb Hge) as (r' & Hr' & _ & _ & _ & Hbv & _).
    rewrite Hr' in Hr. injection Hr as <-.
    eexists. split; [done|]. apply u16_be_at_range.
Qed.

Lemma tlm_field_ranges_witness :
  ∃ r battery_voltage,
    Scanner.parse_eddystone tlm_sample = Return (Some r)
    ∧ r !! "battery_voltage" = Some (VInt battery_voltage)
    ∧ (0 ≤ battery_voltage ≤ 65535)%Z.
Proof.
  destruct (scanner_tlm_long tlm_sample) as (r & Hr & _);
    [reflexivity|simpl; lia|].
  destruct (proj1 (tlm_field_ranges tlm_sample eq_refl) r Hr)
    as (v & bv & adv & sec & _ & _ & Hbv & Hrange & _).
  exists r, bv. auto.
Defined.

(** ** Further properties: the manufacturer-data dispatcher *)

(** Checked on each of the 65536 identifiers of 16 bits, high byte by low
    byte. *)
Lemma format_04X_all_16bit :
  forallb (fun hi =>
    forallb (fun lo => format_04X_ok (256 * hi + lo)%N)
      (N.of_nat <$> seq 0 256))
    (N.of_nat <$> seq 0 256) = true.
Proof. vm_compute. reflexivity. Qed.

Lemma format_04X_16bit (n : N) :
  (n < 65536)%N →
  String.length (format_04X n) = 4
  ∧ all_upper_hex (format_04X n) = true
  ∧ hex_value (format_04X n) = Some n.
Proof.
  intros Hn.
  assert (∀ m, (m < 256)%N → In m (N.of_nat <$> seq 0 256)) as Hin.
  { intros m Hm. apply in_map_iff. exists (N.to_nat m). split; [lia|].
    apply in_seq. lia. }
  assert (format_04X_ok n = true) as H.
  { assert (n / 256 < 256)%N as Hq
      by (apply N.Div0.div_lt_upper_bound; simpl; lia).
    assert (n mod 256 < 256)%N as Hr by (apply N.mod_lt; lia).
    pose proof (proj1 (forallb_forall _ _) format_04X_all_16bit
      (n / 256)%N (Hin _ Hq)) as Hhi. cbv beta in Hhi.
    pose proof (proj1 (forallb_forall _ _) Hhi
      (n mod 256)%N (Hin _ Hr)) as Hlo. cbv beta in Hlo.
    replace (256 * (n / 256) + n mod 256)%N with n in Hlo; [done|].
    apply N.div_mod. lia. }
  unfold format_04X_ok in H.
  apply andb_prop in H as [H Hv]. apply andb_prop in H as [Hl Hu].
  apply Nat.eqb_eq in Hl.
  destruct (hex_value (format_04X n)) as [m|]; [|discriminate].
  apply N.eqb_eq in Hv. by subst m.
Qed.

#[local] Set Warnings "-clear-no-such-hyp".

Section dispatcher_keys.

Variable apple : N.
Variable parse : bytes → outcome (option dict).
Variable kind_key : string.

Hypothesis kind_key_fresh :
  kind_key ≠ "company_id" ∧ kind_key ≠ "raw_data".
Hypothesis parse_keys :
  ∀ data d k, parse data = Return (Some d) →
  (is_Some (d !! k) ↔ k ∈ ibeacon_keys kind_key).

Lemma ibeacon_only_keys_spec k :
  k ∈ ibeacon_only_keys kind_key →
  k ≠ "company_id" ∧ k ≠ "raw_data" ∧ k ∈ ibeacon_keys kind_key.
Proof.
  destruct kind_key_fresh as [Hc Hr].
  unfold ibeacon_only_keys, ibeacon_keys. rewrite !elem_of_cons.
  intros [->|[->|[->|[->|[->|H]]]]]; try (by apply elem_of_nil in H);
    repeat split; try done; auto 10.
Qed.

(** What one pass of the loop does to the keys. *)
Lemma dispatch_step_keys (result : dict) (e : N * bytes) k :
  is_Some (dispatch_step apple parse result e !! k) ↔
    k = "company_id" ∨ is_Some (result !! k)
    ∨ (e.1 ≠ apple ∧ k = "raw_data")
    ∨ (e.1 = apple ∧ k ∈ ibeacon_keys kind_key
       ∧ ∃ d, parse e.2 = Return (Some d)).
Proof.
  unfold dispatch_step, dict_update.
  destruct (N.eqb_spec e.1 apple) as [He|He].
  - destruct (parse e.2) as [[d|]|] eqn:Hp; simpl.
    + pose proof (parse_keys _ _ k Hp) as Hd.
      destruct (negb _) eqn:Ht.
      * rewrite lookup_union_is_Some, lookup_insert_is_Some.
        destruct (decide ("company_id" = k)); naive_solver.
      * apply negb_false_iff, Nat.eqb_eq, map_size_empty_iff in Ht. subst d.
        rewrite lookup_empty in Hd. rewrite lookup_insert_is_Some.
        destruct (decide ("company_id" = k)); [naive_solver|].
        split; [naive_solver|].
        intros [H|[H|[[? _]|(_ & H & _)]]]; [naive_solver..|].
        apply Hd in H. by destruct H.
    + rewrite lookup_insert_is_Some.
      destruct (decide ("company_id" = k)); naive_solver.
    + rewrite lookup_insert_is_Some.
      destruct (decide ("company_id" = k)); naive_solver.
  - rewrite !lookup_insert_is_Some.
    destruct (decide ("company_id" = k)), (decide ("raw_data" = k));
      naive_solver.
Qed.

(** The keys of a dispatcher record: among the seven it can hold, and the
    iBeacon fields come together with everything else. *)
Lemma fold_dispatch_keys (items : list (N * bytes)) :
  let r := fold_left (dispatch_step apple parse) items ∅ in
  (∀ k, is_Some (r !! k) → k ∈ dispatch_keys kind_key)
  ∧ (∀ k1 k2, k1 ∈ ibeacon_only_keys kind_key → is_Some (r !! k1) →
       k2 ∈ dispatch_keys kind_key → is_Some (r !! k2)).
Proof.
  induction items as [|e items IH] using rev_ind; simpl.
  - split; [intros k [? H]|intros k1 k2 _ [? H]]; by rewrite lookup_empty in H.
  - rewrite fold_left_app. simpl.
    set (r0 := fold_left (dispatch_step apple parse) items ∅) in *.
    destruct IH as [IHk IHg]. split.
    + intros k Hk. apply dispatch_step_keys in Hk
        as [->|[H|[[_ ->]|(_ & H & _)]]].
      * unfold dispatch_keys. apply elem_of_cons. by left.
      * by apply IHk.
      * unfold dispatch_keys, ibeacon_keys. rewrite !elem_of_cons. auto 10.
      * unfold dispatch_keys. apply elem_of_cons. by right.
    + intros k1 k2 Hg H1 H2.
      destruct (ibeacon_only_keys_spec _ Hg) as (Hc & Hr & Hin).
      apply dispatch_step_keys.
      apply dispatch_step_keys in H1 as [->|[H|[[_ ->]|(He & _ & Hd)]]];
        try done.
      * right; left. by apply (IHg k1).
      * unfold dispatch_keys in H2. apply elem_of_cons in H2 as [->|H2];
          [by left|]. right; right; right. done.
Qed.

(** The record's [company_id] is the last entry's. *)
Lemma fold_dispatch_company_id (items : list (N * bytes)) (e : N * bytes) :
  fold_left (dispatch_step apple parse) (items ++ [e]) ∅ !! "company_id"
  = Some (VStr ("0x" +:+ format_04X e.1)).
Proof.
  rewrite fold_left_app. simpl.
  destruct (dispatch_step_company_id apple parse
    (fold_left (dispatch_step apple parse) items ∅) e)
    as [H|(d & Hd & Hc)]; [done|].
  apply (parse_keys _ _ _ Hd) in Hc. destruct kind_key_fresh as [Hk _].
  unfold ibeacon_keys in Hc. rewrite !elem_of_cons in Hc.
  destruct Hc as [H|[H|[H|[H|[H|[H|H]]]]]]; try done.
  by apply elem_of_nil in H.
Qed.

End dispatcher_keys.

Lemma last_other_raw_snoc (items : list (N * bytes)) cid (data : bytes) :
  cid ≠ 0x004C%N →
  last_other_raw (items ++ [(cid, data)]) = Some (VStr (bytes_hex data)).
Proof.
  intros Hne. unfold last_other_raw. rewrite fold_left_app. simpl.
  by destruct (N.eqb_spec cid 76).
Qed.

(** X9. The [company_id] of a dispatcher record is that of the entry
    processed last; for a 16-bit identifier it is the text [0x] followed
    by exactly four uppercase hex digits, which read back as the
    identifier (so different identifiers give different texts). *)
Theorem company_id_text (prefix : list (N * bytes)) (cid : N) (data : bytes) :
  (cid < 65536)%N →
  ∃ digits,
    String.length digits = 4 ∧ all_upper_hex digits = true
    ∧ hex_value digits = Some cid
    ∧ (∃ r, Scanner.parse_manufacturer_data (prefix ++ [(cid, data)])
              = Return r
         ∧ r !! "company_id" = Some (VStr ("0x" +:+ digits)))
    ∧ (∃ r, ScannerCsv.parse_manufacturer_data (prefix ++ [(cid, data)])
              = Return r
         ∧ r !! "company_id" = Some (VStr ("0x" +:+ digits))).
Proof.
  intros Hc. destruct (format_04X_16bit cid Hc) as (Hl & Hu & Hv).
  exists (format_04X cid). repeat (split; [done|]).
  split; eexists.
  - split; [apply scanner_dispatch_fold|].
    apply (fold_dispatch_company_id _ _ "type");
      [done|apply scanner_ibeacon_keys].
  - split; [apply csv_dispatch_fold|].
    apply (fold_dispatch_company_id _ _ "beacon_type");
      [done|apply csv_ibeacon_keys].
Qed.

Lemma company_id_text_witness :
  ∃ digits r,
    String.length digits = 4 ∧ hex_value digits = Some 0x0999%N
    ∧ Scanner.parse_manufacturer_data two_entries = Return r
    ∧ r !! "company_id" = Some (VStr ("0x" +:+ digits)).
Proof.
  destruct (company_id_text [(0x004C%N, ibeacon_sample)] 0x0999
    (byte_of <$> [1; 2; 3]%N)) as (digits & Hl & _ & Hv & (r & Hr & Hc) & _);
    [reflexivity|].
  exists digits, r. auto.
Defined.

(** X10. A mapping without an Apple entry is never decoded: whatever the
    payloads, the record of either dispatcher has exactly two keys, the
    [company_id] of the last entry and the hex of its payload as
    [raw_data]. This includes the identifier 0x00AA that the scanners
    name [GOOGLE_COMPANY_ID] and never read. *)
Theorem other_vendors_raw_only (prefix : list (N * bytes)) (cid : N)
    (data : bytes) :
  (∀ e, e ∈ prefix ++ [(cid, data)] → e.1 ≠ 0x004C%N) →
  ∀ dispatch,
    dispatch = Scanner.parse_manufacturer_data
    ∨ dispatch = ScannerCsv.parse_manufacturer_data →
  dispatch (prefix ++ [(cid, data)])
  = Return (dict_of [
      ("company_id", VStr ("0x" +:+ format_04X cid));
      ("raw_data", VStr (bytes_hex data))]).
Proof.
  intros Hother dispatch Hd.
  assert (cid ≠ 0x004C%N) as Hcid.
  { apply (Hother (cid, data)), elem_of_app. right. constructor. }
  assert (∀ c d, (c, d) ∈ prefix ++ [(cid, data)] → c = 0x004C%N →
    length d < 23) as Hshort.
  { intros c d Hin ->. by destruct (Hother _ Hin). }
  assert (∀ r : dict,
    r !! "company_id" = Some (VStr ("0x" +:+ format_04X cid)) →
    r !! "raw_data" = Some (VStr (bytes_hex data)) →
    (∀ k, k ≠ "company_id" → k ≠ "raw_data" → r !! k = None) →
    r = dict_of [("company_id", VStr ("0x" +:+ format_04X cid));
                 ("raw_data", VStr (bytes_hex data))]) as Hext.
  { intros r Hc Hr Hk. apply map_eq. intros k.
    rewrite dict_of_lookup. cbn [items_get].
    destruct (String.eqb_spec "raw_data" k) as [<-|Hn1]; [done|].
    destruct (String.eqb_spec "company_id" k) as [<-|Hn2]; [done|].
    apply Hk; congruence. }
  destruct Hd as [-> | ->].
  - rewrite scanner_dispatch_fold. f_equal.
    destruct (fold_short_apple Scanner.APPLE_COMPANY_ID Scanner.parse_ibeacon
      eq_refl scanner_ibeacon_short _ ∅ Hshort) as (Hk & Hraw & _).
    apply Hext.
    + apply (fold_dispatch_company_id _ _ "type");
        [done|apply scanner_ibeacon_keys].
    + rewrite Hraw. by apply last_other_raw_snoc.
    + intros k H1 H2. by rewrite Hk.
  - rewrite csv_dispatch_fold. f_equal.
    destruct (fold_short_apple ScannerCsv.APPLE_COMPANY_ID
      ScannerCsv.parse_ibeacon eq_refl csv_ibeacon_short _ ∅ Hshort)
      as (Hk & Hraw & _).
    apply Hext.
    + apply (fold_dispatch_company_id _ _ "beacon_type");
        [done|apply csv_ibeacon_keys].
    + rewrite Hraw. by apply last_other_raw_snoc.
    + intros k H1 H2. by rewrite Hk.
Qed.

Lemma other_vendors_raw_only_witness :
  Scanner.parse_manufacturer_data [(GOOGLE_COMPANY_ID, tlm_sample)]
  = Return (dict_of [
      ("company_id", VStr "0x00AA");
      ("raw_data", VStr "20000be40c980000000500000578")]).
Proof.
  apply (other_vendors_raw_only [] GOOGLE_COMPANY_ID tlm_sample);
    [|by left].
  intros e He. apply list_elem_of_singleton in He. subst e. discriminate.
Defined.

(** X11. A dispatcher record of either scanner holds no key beyond
    [company_id], the kind, [uuid], [major], [minor], [tx_power] and
    [raw_data]; and the fields only an iBeacon writes are all present or
    all absent: when one of them is there, so are the others, together
    with [raw_data] and [company_id]. *)
Theorem dispatch_record_keys (mfg_data : list (N * bytes)) :
  (∀ r, Scanner.parse_manufacturer_data mfg_data = Return r →
     (∀ k, is_Some (r !! k) → k ∈ dispatch_keys "type")
     ∧ (∀ k1 k2, k1 ∈ ibeacon_only_keys "type" → is_Some (r !! k1) →
          k2 ∈ dispatch_keys "type" → is_Some (r !! k2))) ∧
  (∀ r, ScannerCsv.parse_manufacturer_data mfg_data = Return r →
     (∀ k, is_Some (r !! k) → k ∈ dispatch_keys "beacon_type")
     ∧ (∀ k1 k2, k1 ∈ ibeacon_only_keys "beacon_type" →
          is_Some (r !! k1) →
          k2 ∈ dispatch_keys "beacon_type" → is_Some (r !! k2))).
Proof.
  split; intros r Hr.
  - rewrite scanner_dispatch_fold in Hr. injection Hr as <-.
    apply (fold_dispatch_keys _ _ "type"); [done|apply scanner_ibeacon_keys].
  - rewrite csv_dispatch_fold in Hr. injection Hr as <-.
    apply (fold_dispatch_keys _ _ "beacon_type");
      [done|apply csv_ibeacon_keys].
Qed.

Lemma dispatch_record_keys_witness :
  ∃ r, Scanner.parse_manufacturer_data two_entries = Return r
       ∧ (is_Some (r !! "major") → is_Some (r !! "minor")).
Proof.
  eexists. split; [apply scanner_dispatch_fold|].
  intros H.
  apply (proj1 (dispatch_record_keys two_entries) _
    (scanner_dispatch_fold two_entries)) with (k1 := "major");
    [|exact H|]; unfold ibeacon_only_keys, dispatch_keys, ibeacon_keys;
    rewrite !elem_of_cons; auto 10.
Defined.

(** ** Further properties: the CSV file *)

(** Shows that a concrete key is not in a list of keys. *)
Ltac not_in_keys :=
  let H := fresh in
  intros H; repeat (apply elem_of_cons in H as [H|H]; [discriminate H|]);
  by apply elem_of_nil in H.

Lemma write_to_csv_cases (file : CsvLog.csv_file)
    (data : gmap string CsvLog.pyval) :
  CsvLog.write_to_csv file data = file
  ∨ ∃ row, CsvLog.write_to_csv file data = file ++ [row]
      ∧ length row = length CsvLog.headers.
Proof.
  unfold CsvLog.write_to_csv.
  destruct (CsvLog.join_pyval _ _); [right|by left].
  eexists. split; reflexivity.
Qed.

(** X12. The CSV file only grows, a row at a time, and every row has as
    many cells as the header: after [create_csv_file] and any sequence of
    [write_to_csv] calls the file starts with the 13 header names and each
    of its rows has 13 cells; a call appends at most one row and leaves
    the rows before it as they were. *)
Theorem csv_rows_match_header
    (datas : list (gmap string CsvLog.pyval)) :
  let file := fold_left CsvLog.write_to_csv datas CsvLog.create_csv_file in
  length CsvLog.headers = 13
  ∧ Forall (fun row => length row = 13) file
  ∧ file !! 0 = Some ((fun h => CsvLog.PVal (VStr h)) <$> CsvLog.headers)
  ∧ 1 ≤ length file ≤ 1 + length datas
  ∧ ∀ data, ∃ rows, length rows ≤ 1
      ∧ CsvLog.write_to_csv file data = file ++ rows.
Proof.
  simpl. split; [reflexivity|].
  induction datas as [|data datas IH] using rev_ind.
  - simpl. split_and!; [by repeat constructor| |lia|lia|].
    + reflexivity.
    + intros data.
      destruct (write_to_csv_cases CsvLog.create_csv_file data)
        as [H|(row & H & _)]; rewrite H.
      * exists []. split; [simpl; lia|by rewrite ?app_nil_r].
      * exists [row]. split; [simpl; lia|done].
  - rewrite fold_left_app, length_app. simpl.
    set (file := fold_left CsvLog.write_to_csv datas CsvLog.create_csv_file)
      in *.
    destruct IH as (Hall & Hhead & Hlen & _).
    assert (∀ f d, ∃ rows, length rows ≤ 1
              ∧ CsvLog.write_to_csv f d = f ++ rows) as Hone.
    { intros f d. destruct (write_to_csv_cases f d) as [H|(row & H & _)];
        rewrite H.
      - exists []. split; [simpl; lia|by rewrite ?app_nil_r].
      - exists [row]. split; [simpl; lia|done]. }
    destruct (write_to_csv_cases file data) as [H|(row & H & Hrow)];
      rewrite H.
    + split_and!; [done|done|lia|lia|apply Hone].
    + split_and!.
      * apply Forall_app. split; [done|]. by repeat constructor.
      * rewrite lookup_app_l; [done|lia].
      * rewrite length_app. simpl. lia.
      * rewrite length_app. simpl. lia.
      * apply Hone.
Qed.

(** X13. The cells of a row are in the order of the header: when
    [write_to_csv] appends a row, its cell in the column of a header name
    other than [service_uuids] is the value [data] has under that name,
    or the empty string when [data] has none. *)
Theorem csv_row_follows_header (file : CsvLog.csv_file)
    (data : gmap string CsvLog.pyval) (row : list CsvLog.pyval) :
  CsvLog.write_to_csv file data = file ++ [row] →
  ∀ i h, CsvLog.headers !! i = Some h → h ≠ "service_uuids" →
  row !! i = Some (default blank (data !! h)).
Proof.
  unfold CsvLog.write_to_csv.
  destruct (CsvLog.join_pyval _ _) as [joined|].
  - intros H. apply app_inv_head in H. injection H as <-.
    intros i h Hi Hh.
    do 13 (destruct i as [|i]; [injection Hi as <-; try done|]).
    discriminate Hi.
  - intros H. apply (f_equal length) in H. rewrite length_app in H.
    simpl in H. lia.
Qed.

Lemma csv_row_follows_header_witness :
  ∃ row,
    CsvLog.write_to_csv [] {["major" := CsvLog.PVal (VInt 0)]} = [] ++ [row]
    ∧ row !! 7 = Some (CsvLog.PVal (VInt 0))
    ∧ row !! 8 = Some blank.
Proof.
  eexists. split; [reflexivity|].
  match goal with
  | |- ?row !! 7 = _ ∧ _ =>
      pose proof (csv_row_follows_header []
        {["major" := CsvLog.PVal (VInt 0)]} row eq_refl) as H
  end.
  split.
  - exact (H 7 "major" eq_refl ltac:(discriminate)).
  - exact (H 8 "minor" eq_refl ltac:(discriminate)).
Defined.

(** X14. Only the values under the 13 header names reach the file: two
    dictionaries that agree on them are written identically, so the
    [namespace], [instance], [battery_voltage] and [temperature] of an
    Eddystone record are never written. *)
Theorem csv_row_ignores_other_keys (file : CsvLog.csv_file)
    (d1 d2 : gmap string CsvLog.pyval) :
  (∀ h, h ∈ CsvLog.headers → d1 !! h = d2 !! h) →
  CsvLog.write_to_csv file d1 = CsvLog.write_to_csv file d2
  ∧ ∀ k v, k ∈ ["namespace"; "instance"; "battery_voltage"; "temperature"] →
      CsvLog.write_to_csv file (<[k := v]> d1) = CsvLog.write_to_csv file d2.
Proof.
  intros Hagree.
  assert (∀ a b : gmap string CsvLog.pyval,
    (∀ h, h ∈ CsvLog.headers → a !! h = b !! h) →
    CsvLog.write_to_csv file a = CsvLog.write_to_csv file b) as Hsame.
  { intros a b H. unfold CsvLog.write_to_csv, CsvLog.get_or_empty.
    rewrite !H by (unfold CsvLog.headers; rewrite !elem_of_cons; auto 20).
    reflexivity. }
  split; [by apply Hsame|].
  intros k v Hk. apply Hsame. intros h Hh.
  rewrite lookup_insert_ne; [by apply Hagree|].
  intros ->. revert Hh.
  repeat (apply elem_of_cons in Hk as [->|Hk]; [not_in_keys|]).
  by apply elem_of_nil in Hk.
Qed.

Lemma csv_row_ignores_other_keys_witness :
  CsvLog.write_to_csv []
    (<["temperature" := CsvLog.PVal (VFloat 12.59375%float)]> ∅)
  = CsvLog.write_to_csv [] ∅.
Proof.
  apply (csv_row_ignores_other_keys [] ∅ ∅); [done|].
  rewrite !elem_of_cons. auto.
Defined.

(** ** Further properties: the callback of the CSV scanner *)

Lemma update_lookup (bd : gmap string CsvLog.pyval) (d : dict) k :
  CsvLog.update bd d !! k
  = match d !! k with
    | Some v => Some (CsvLog.PVal v)
    | None => bd !! k
    end.
Proof.
  unfold CsvLog.update. rewrite lookup_union, lookup_fmap.
  destruct (d !! k), (bd !! k); reflexivity.
Qed.

Lemma update_empty (bd : gmap string CsvLog.pyval) : CsvLog.update bd ∅ = bd.
Proof.
  unfold CsvLog.update. by rewrite fmap_empty, (left_id_L ∅ (∪)).
Qed.

(** The keys of a record of the CSV scanner's Eddystone parser. *)
Lemma csv_eddystone_keys_bound (data : bytes) (r : dict) k :
  ScannerCsv.parse_eddystone data = Return (Some r) →
  is_Some (r !! k) → k ∈ csv_eddystone_keys.
Proof.
  destruct data as [|x data]; [discriminate|].
  unfold ScannerCsv.parse_eddystone, ScannerCsv.parse_eddystone_body.
  change (getitem (x :: data) 0) with (Return (byte_val x)).
  unfold mbind, outcome_bind, mret, outcome_ret, try_except.
  intros H. repeat case_match; simplify_eq;
    rewrite ?dict_update_is_Some, !dict_of_is_Some;
    unfold csv_eddystone_keys; simpl; rewrite !elem_of_cons; naive_solver.
Qed.

Lemma csv_eddystone_kind (data : bytes) (r : dict) :
  ScannerCsv.parse_eddystone data = Return (Some r) →
  r !! "beacon_type" = Some (VStr "Eddystone").
Proof.
  destruct data as [|x data]; [discriminate|].
  unfold ScannerCsv.parse_eddystone, ScannerCsv.parse_eddystone_body.
  change (getitem (x :: data) 0) with (Return (byte_val x)).
  unfold mbind, outcome_bind, mret, outcome_ret, try_except.
  intros H. repeat case_match; simplify_eq; dict_lookup.
Qed.

Lemma csv_eddystone_returns (data : bytes) :
  ∃ o, ScannerCsv.parse_eddystone data = Return o.
Proof.
  unfold ScannerCsv.parse_eddystone.
  destruct (ScannerCsv.parse_eddystone_body data); simpl; eauto.
Qed.

(** The loop over the service data returns the fold of its body. *)
Lemma service_loop_fold (items : list (string * bytes))
    (bd : gmap string CsvLog.pyval) :
  CsvLog.service_loop items bd = Return (fold_left service_step items bd).
Proof.
  revert bd. induction items as [|[uuid data] items IH]; intros bd;
    [reflexivity|].
  simpl. unfold service_step at 2. simpl.
  destruct (CsvLog.is_eddystone_uuid uuid); [|apply IH].
  destruct (csv_eddystone_returns data) as [o ->]. simpl.
  destruct (truthy o); apply IH.
Qed.

(** [beacon_data] when the row is written. *)
Lemma collect_beacon_data_eq (timestamp : string) (dev : CsvLog.device)
    (adv : CsvLog.advertisement_data) :
  CsvLog.collect_beacon_data timestamp dev adv
  = Return (fold_left service_step (CsvLog.service_data adv)
      (CsvLog.update (initial_beacon_data timestamp dev adv)
         (fold_left
            (dispatch_step ScannerCsv.APPLE_COMPANY_ID
               ScannerCsv.parse_ibeacon)
            (CsvLog.manufacturer_data adv) ∅))).
Proof.
  unfold CsvLog.collect_beacon_data.
  fold (initial_beacon_data timestamp dev adv).
  destruct (CsvLog.manufacturer_data adv) as [|e mfg] eqn:Hm.
  - simpl. rewrite update_empty.
    destruct (CsvLog.service_data adv) as [|s sd]; [reflexivity|].
    apply service_loop_fold.
  - rewrite csv_dispatch_fold.
    change (Return ?r ≫= ?f) with (f r). cbv beta.
    change (mret ?x ≫= ?f) with (f x). cbv beta.
    destruct (CsvLog.service_data adv) as [|s sd]; [reflexivity|].
    apply service_loop_fold.
Qed.

(** A pass over a service entry writes keys of an Eddystone record
    only. *)
Lemma service_step_other (bd : gmap string CsvLog.pyval)
    (e : string * bytes) k :
  k ∉ csv_eddystone_keys → service_step bd e !! k = bd !! k.
Proof.
  intros Hk. unfold service_step.
  destruct (CsvLog.is_eddystone_uuid e.1); [|done].
  destruct (ScannerCsv.parse_eddystone e.2) as [[d|]|] eqn:Hp; simpl;
    [|done..].
  destruct (negb _); [|done].
  rewrite update_lookup.
  destruct (d !! k) eqn:Hd; [|done].
  destruct Hk. apply (csv_eddystone_keys_bound _ _ _ Hp). by rewrite Hd.
Qed.

Lemma fold_service_other (items : list (string * bytes))
    (bd : gmap string CsvLog.pyval) k :
  k ∉ csv_eddystone_keys → fold_left service_step items bd !! k = bd !! k.
Proof.
  intros Hk. revert bd. induction items as [|e items IH]; intros bd;
    [done|].
  simpl. by rewrite IH, service_step_other.
Qed.

(** A key neither the dispatcher nor the Eddystone parser writes keeps
    its first value through the whole collection. *)
Lemma collected_device_key (timestamp : string) (dev : CsvLog.device)
    (adv : CsvLog.advertisement_data) (bd : gmap string CsvLog.pyval) k :
  CsvLog.collect_beacon_data timestamp dev adv = Return bd →
  k ∉ csv_eddystone_keys → k ∉ dispatch_keys "beacon_type" →
  bd !! k = initial_beacon_data timestamp dev adv !! k.
Proof.
  rewrite collect_beacon_data_eq. intros [= <-] He Hd.
  rewrite fold_service_other by done. rewrite update_lookup.
  destruct (fold_left _ _ _ !! k) eqn:Hk; [|done].
  destruct Hd.
  assert ("beacon_type" ≠ "company_id" ∧ "beacon_type" ≠ "raw_data")
    as Hfresh by done.
  pose proof (fold_dispatch_keys ScannerCsv.APPLE_COMPANY_ID
    ScannerCsv.parse_ibeacon "beacon_type" Hfresh
    csv_ibeacon_keys (CsvLog.manufacturer_data adv)) as Hkeys.
  cbv zeta in Hkeys. apply (proj1 Hkeys). rewrite Hk. by eexists.
Qed.

(** The callback writes the row of the collected [beacon_data]. *)
Lemma callback_row (timestamp : string) (dev : CsvLog.device)
    (adv : CsvLog.advertisement_data) (file : CsvLog.csv_file) :
  ∃ bd, CsvLog.collect_beacon_data timestamp dev adv = Return bd
    ∧ CsvLog.detection_callback timestamp dev adv file
      = Return (file ++ [[
          CsvLog.get_or_empty bd "timestamp";
          CsvLog.get_or_empty bd "device_address";
          CsvLog.get_or_empty bd "device_name";
          CsvLog.get_or_empty bd "rssi";
          CsvLog.get_or_empty bd "beacon_type";
          CsvLog.get_or_empty bd "company_id";
          CsvLog.get_or_empty bd "uuid";
          CsvLog.get_or_empty bd "major";
          CsvLog.get_or_empty bd "minor";
          CsvLog.get_or_empty bd "tx_power";
          CsvLog.PVal (VStr (str_join ","
            (default [] (CsvLog.service_uuids adv))));
          CsvLog.get_or_empty bd "frame_type";
          CsvLog.get_or_empty bd "raw_data" ]]).
Proof.
  destruct (CsvLog.collect_beacon_data timestamp dev adv) as [bd|] eqn:Hc;
    [|by rewrite collect_beacon_data_eq in Hc].
  exists bd. split; [done|].
  unfold CsvLog.detection_callback. rewrite Hc.
  change (Return bd ≫= ?f) with (f bd). cbv beta.
  unfold CsvLog.write_to_csv.
  rewrite (collected_device_key _ _ _ _ "service_uuids" Hc)
    by not_in_keys.
  reflexivity.
Qed.

(** X15. Every advertisement event adds exactly one row of 13 cells to
    the CSV file, whatever the manufacturer and service payloads hold: no
    payload makes the callback raise or skip the row. *)
Theorem callback_appends_one_row (timestamp : string) (dev : CsvLog.device)
    (adv : CsvLog.advertisement_data) (file : CsvLog.csv_file) :
  ∃ row, CsvLog.detection_callback timestamp dev adv file
           = Return (file ++ [row])
         ∧ length row = 13.
Proof.
  destruct (callback_row timestamp dev adv file) as (bd & _ & Hrow).
  eexists. split; [exact Hrow|reflexivity].
Qed.

(** X16. The first four cells of the row and the [service_uuids] cell
    come from the device and the advertisement alone, whatever the
    payloads decode to: the timestamp, the address, the device name (the
    text [Unknown] when the name is missing or empty), the RSSI, and the
    service UUIDs joined by commas. *)
Theorem callback_device_cells (timestamp : string) (dev : CsvLog.device)
    (adv : CsvLog.advertisement_data) (file : CsvLog.csv_file) :
  ∃ row, CsvLog.detection_callback timestamp dev adv file
           = Return (file ++ [row])
    ∧ row !! 0 = Some (CsvLog.PVal (VStr timestamp))
    ∧ row !! 1 = Some (CsvLog.PVal (VStr (CsvLog.address dev)))
    ∧ row !! 2 = Some (CsvLog.PVal
        (VStr (match CsvLog.name dev with
               | Some (String c s) => String c s
               | Some EmptyString | None => "Unknown"
               end)))
    ∧ row !! 3 = Some (CsvLog.PVal (VInt (CsvLog.rssi dev)))
    ∧ row !! 10 = Some (CsvLog.PVal (VStr (str_join ","
        (match CsvLog.service_uuids adv with
         | Some l => l
         | None => []
         end)))).
Proof.
  destruct (callback_row timestamp dev adv file) as (bd & Hc & Hrow).
  eexists. split; [exact Hrow|].
  cbn [lookup list_lookup]. unfold CsvLog.get_or_empty.
  rewrite !(collected_device_key _ _ _ _ _ Hc) by not_in_keys.
  split_and!; try reflexivity.
  unfold initial_beacon_data. rewrite !lookup_insert. simpl.
  by destruct (CsvLog.name dev) as [[|c s]|].
Qed.

Lemma fold_service_no_match (items : list (string * bytes))
    (bd : gmap string CsvLog.pyval) :
  Forall (fun e => CsvLog.is_eddystone_uuid e.1 = false) items →
  fold_left service_step items bd = bd.
Proof.
  induction 1 as [|e items He _ IH]; [done|].
  simpl. unfold service_step at 2. by rewrite He.
Qed.

(** X17. With no manufacturer data and no service UUID containing
    [feaa], the row holds the device cells and the empty string in each of
    the eight beacon columns. *)
Theorem callback_blank_row (timestamp : string) (dev : CsvLog.device)
    (adv : CsvLog.advertisement_data) (file : CsvLog.csv_file) :
  CsvLog.manufacturer_data adv = [] →
  Forall (fun e => CsvLog.is_eddystone_uuid e.1 = false)
    (CsvLog.service_data adv) →
  CsvLog.detection_callback timestamp dev adv file
  = Return (file ++ [[
      CsvLog.PVal (VStr timestamp);
      CsvLog.PVal (VStr (CsvLog.address dev));
      CsvLog.PVal (VStr (CsvLog.name_or_unknown (CsvLog.name dev)));
      CsvLog.PVal (VInt (CsvLog.rssi dev));
      blank; blank; blank; blank; blank; blank;
      CsvLog.PVal (VStr (str_join ","
        (default [] (CsvLog.service_uuids adv))));
      blank; blank ]]).
Proof.
  intros Hm Hs.
  destruct (callback_row timestamp dev adv file) as (bd & Hc & ->).
  rewrite collect_beacon_data_eq, Hm in Hc. simpl in Hc.
  rewrite update_empty, (fold_service_no_match _ _ Hs) in Hc.
  injection Hc as <-. reflexivity.
Qed.

Lemma callback_blank_row_witness :
  CsvLog.detection_callback "2024-01-01 00:00:00.000"
    {| CsvLog.address := "AA:BB"; CsvLog.name := None; CsvLog.rssi := -70 |}
    {| CsvLog.manufacturer_data := [];
       CsvLog.service_data := [("0000180f-0000-1000-8000-00805f9b34fb",
                                [Byte.x64])];
       CsvLog.service_uuids := None |}
    CsvLog.create_csv_file
  = Return (CsvLog.create_csv_file ++ [[
      CsvLog.PVal (VStr "2024-01-01 00:00:00.000");
      CsvLog.PVal (VStr "AA:BB");
      CsvLog.PVal (VStr "Unknown");
      CsvLog.PVal (VInt (-70));
      blank; blank; blank; blank; blank; blank;
      CsvLog.PVal (VStr "");
      blank; blank ]]).
Proof.
  apply (callback_blank_row "2024-01-01 00:00:00.000"
    {| CsvLog.address := "AA:BB"; CsvLog.name := None; CsvLog.rssi := -70 |}
    {| CsvLog.manufacturer_data := [];
       CsvLog.service_data := [("0000180f-0000-1000-8000-00805f9b34fb",
                                [Byte.x64])];
       CsvLog.service_uuids := None |}).
  - reflexivity.
  - repeat constructor.
Defined.

Lemma fold_service_filter (items : list (string * bytes))
    (bd : gmap string CsvLog.pyval) :
  fold_left service_step
    (filter (fun e => CsvLog.is_eddystone_uuid e.1 = true) items) bd
  = fold_left service_step items bd.
Proof.
  revert bd. induction items as [|e items IH]; intros bd; [done|].
  rewrite filter_cons. case_decide as He; simpl.
  - apply IH.
  - rewrite IH. f_equal. unfold service_step.
    by destruct (CsvLog.is_eddystone_uuid e.1).
Qed.

(** X18. Service entries whose UUID does not contain [feaa] have no
    effect on the CSV file: the callback writes the same row as for the
    advertisement with those entries removed. *)
Theorem callback_ignores_other_services (timestamp : string)
    (dev : CsvLog.device) (adv : CsvLog.advertisement_data)
    (file : CsvLog.csv_file) :
  CsvLog.detection_callback timestamp dev adv file
  = CsvLog.detection_callback timestamp dev
      (with_service_data adv
         (filter (fun e => CsvLog.is_eddystone_uuid e.1 = true)
            (CsvLog.service_data adv)))
      file.
Proof.
  unfold CsvLog.detection_callback.
  rewrite !collect_beacon_data_eq. simpl.
  by rewrite fold_service_filter.
Qed.

Lemma collect_service_snoc (timestamp : string) (dev : CsvLog.device)
    (adv : CsvLog.advertisement_data) (items : list (string * bytes))
    (uuid : string) (payload : bytes) (d : dict) :
  CsvLog.is_eddystone_uuid uuid = true →
  ScannerCsv.parse_eddystone payload = Return (Some d) →
  ∃ bd0,
    CsvLog.collect_beacon_data timestamp dev (with_service_data adv items)
      = Return bd0
    ∧ CsvLog.collect_beacon_data timestamp dev
        (with_service_data adv (items ++ [(uuid, payload)]))
      = Return (CsvLog.update bd0 d).
Proof.
  intros Hu Hp. eexists. rewrite !collect_beacon_data_eq.
  split; [reflexivity|]. simpl. rewrite fold_left_app. simpl.
  unfold service_step at 1. simpl. rewrite Hu, Hp.
  rewrite (truthy_lookup _ _ _ (csv_eddystone_kind _ _ Hp)). reflexivity.
Qed.

(** X19. When the last service entry has a UUID containing [feaa] and a
    payload the Eddystone parser decodes, its record is merged over what
    was collected before: the row's [beacon_type] is [Eddystone] and its
    [raw_data] the hex of that payload, while the device cells and the
    [company_id], [uuid], [major] and [minor] cells stay those of the row
    without that entry, so an iBeacon's identifiers remain in a row
    labelled Eddystone. *)
Theorem eddystone_overrides_row (timestamp : string) (dev : CsvLog.device)
    (adv : CsvLog.advertisement_data) (file : CsvLog.csv_file)
    (items : list (string * bytes)) (uuid : string) (payload : bytes)
    (d : dict) :
  CsvLog.is_eddystone_uuid uuid = true →
  ScannerCsv.parse_eddystone payload = Return (Some d) →
  ∃ row0 row,
    CsvLog.detection_callback timestamp dev (with_service_data adv items)
      file = Return (file ++ [row0])
    ∧ CsvLog.detection_callback timestamp dev
        (with_service_data adv (items ++ [(uuid, payload)])) file
      = Return (file ++ [row])
    ∧ row !! 4 = Some (CsvLog.PVal (VStr "Eddystone"))
    ∧ row !! 12 = Some (CsvLog.PVal (VStr (bytes_hex payload)))
    ∧ ∀ i, i ∈ [0; 1; 2; 3; 5; 6; 7; 8; 10] → row !! i = row0 !! i.
Proof.
  intros Hu Hp.
  destruct (collect_service_snoc timestamp dev adv items _ _ _ Hu Hp)
    as (bd0 & Hc0 & Hc).
  destruct (callback_row timestamp dev (with_service_data adv items) file)
    as (bd0' & Hc0' & Hrow0).
  destruct (callback_row timestamp dev
    (with_service_data adv (items ++ [(uuid, payload)])) file)
    as (bd' & Hc' & Hrow).
  rewrite Hc0 in Hc0'. injection Hc0' as <-.
  rewrite Hc in Hc'. injection Hc' as <-.
  eexists _, _. split; [exact Hrow0|]. split; [exact Hrow|].
  assert (∀ k, k ∉ csv_eddystone_keys →
    CsvLog.get_or_empty (CsvLog.update bd0 d) k = CsvLog.get_or_empty bd0 k)
    as Hkeep.
  { intros k Hk. unfold CsvLog.get_or_empty. rewrite update_lookup.
    destruct (d !! k) eqn:Hd; [|done].
    destruct Hk. apply (csv_eddystone_keys_bound _ _ _ Hp). by rewrite Hd. }
  split_and!.
  - cbn [lookup list_lookup]. unfold CsvLog.get_or_empty.
    by rewrite update_lookup, (csv_eddystone_kind _ _ Hp).
  - cbn [lookup list_lookup]. unfold CsvLog.get_or_empty.
    by rewrite update_lookup, (csv_eddystone_raw _ _ Hp).
  - intros i Hi.
    repeat (apply elem_of_cons in Hi as [->|Hi];
      [cbn [lookup list_lookup]; rewrite ?Hkeep by not_in_keys; done|]).
    by apply elem_of_nil in Hi.
Qed.

Lemma eddystone_overrides_row_witness :
  ∃ row0 row,
    CsvLog.detection_callback "t"
      {| CsvLog.address := "AA:BB"; CsvLog.name := None; CsvLog.rssi := -70 |}
      (with_service_data
         {| CsvLog.manufacturer_data := [(0x004C%N, ibeacon_sample)];
            CsvLog.service_data := []; CsvLog.service_uuids := None |} [])
      [] = Return ([] ++ [row0])
    ∧ CsvLog.detection_callback "t"
        {| CsvLog.address := "AA:BB"; CsvLog.name := None;
           CsvLog.rssi := -70 |}
        (with_service_data
           {| CsvLog.manufacturer_data := [(0x004C%N, ibeacon_sample)];
              CsvLog.service_data := []; CsvLog.service_uuids := None |}
           ([] ++ [("0000FEAA-0000-1000-8000-00805F9B34FB", tlm_sample)]))
        [] = Return ([] ++ [row])
    ∧ row !! 4 = Some (CsvLog.PVal (VStr "Eddystone"))
    ∧ row !! 6 = row0 !! 6.
Proof.
  destruct (csv_tlm_long tlm_sample) as (d & Hd & _);
    [reflexivity|simpl; lia|].
  destruct (eddystone_overrides_row "t"
    {| CsvLog.address := "AA:BB"; CsvLog.name := None; CsvLog.rssi := -70 |}
    {| CsvLog.manufacturer_data := [(0x004C%N, ibeacon_sample)];
       CsvLog.service_data := []; CsvLog.service_uuids := None |}
    [] [] "0000FEAA-0000-1000-8000-00805F9B34FB" tlm_sample d eq_refl Hd)
    as (row0 & row & H0 & H1 & H4 & _ & Hsame).
  exists row0, row. split_and!; [done|done|done|].
  apply Hsame. rewrite !elem_of_cons. auto 10.
Defined.

(** X20. The lookups of the console echo that ends the callback cannot
    miss: the collected [beacon_data] always has [timestamp],
    [device_name], [device_address] and [rssi], and whenever it has
    [major] it has [minor] and [uuid] too. *)
Theorem beacon_data_has_echoed_keys (timestamp : string)
    (dev : CsvLog.device) (adv : CsvLog.advertisement_data) :
  ∃ bd, CsvLog.collect_beacon_data timestamp dev adv = Return bd
    ∧ (∀ k, k ∈ ["timestamp"; "device_name"; "device_address"; "rssi"] →
         is_Some (bd !! k))
    ∧ (is_Some (bd !! "major") →
         is_Some (bd !! "minor") ∧ is_Some (bd !! "uuid")).
Proof.
  destruct (callback_row timestamp dev adv []) as (bd & Hc & _).
  exists bd. split; [done|]. split.
  - intros k Hk.
    repeat (apply elem_of_cons in Hk as [->|Hk];
      [rewrite (collected_device_key _ _ _ _ _ Hc) by not_in_keys;
       by eexists|]).
    by apply elem_of_nil in Hk.
  - rewrite collect_beacon_data_eq in Hc. injection Hc as <-.
    rewrite !fold_service_other by not_in_keys. rewrite !update_lookup.
    assert ("beacon_type" ≠ "company_id" ∧ "beacon_type" ≠ "raw_data")
      as Hfresh by done.
    pose proof (fold_dispatch_keys ScannerCsv.APPLE_COMPANY_ID
      ScannerCsv.parse_ibeacon "beacon_type" Hfresh
      csv_ibeacon_keys (CsvLog.manufacturer_data adv)) as Hkeys.
    cbv zeta in Hkeys. destruct Hkeys as [_ Hall].
    set (r := fold_left _ (CsvLog.manufacturer_data adv) ∅) in *.
    intros Hmajor.
    assert (is_Some (r !! "major")) as Hr.
    { destruct (r !! "major"); [by eexists|].
      unfold initial_beacon_data in Hmajor.
      rewrite !lookup_insert_ne, lookup_empty in Hmajor by done.
      by destruct Hmajor. }
    assert (∀ k2, k2 ∈ dispatch_keys "beacon_type" →
      is_Some (match r !! k2 with
               | Some v => Some (CsvLog.PVal v)
               | None => initial_beacon_data timestamp dev adv !! k2
               end)) as Hthere.
    { intros k2 H2. destruct (Hall "major" k2) as [v Hv];
        [unfold ibeacon_only_keys; rewrite !elem_of_cons; auto|done|done|].
      rewrite Hv. by eexists. }
    split; apply Hthere; unfold dispatch_keys, ibeacon_keys;
      rewrite !elem_of_cons; auto 10.
Qed.

(** ** Further properties: which service UUIDs count as Eddystone *)

Lemma prefix_app (n b : string) : String.prefix n (n +:+ b) = true.
Proof.
  induction n as [|c n IH].
  - change ("" +:+ b) with b. by destruct b.
  - change (String c n +:+ b) with (String c (n +:+ b)). simpl.
    destruct (ascii_dec c c) as [_|Hne]; [exact IH|by destruct Hne].
Qed.

Lemma prefix_split (n h : string) :
  String.prefix n h = true → ∃ b, h = n +:+ b.
Proof.
  revert h. induction n as [|c n IH]; intros h.
  - intros _. by exists h.
  - destruct h as [|c' h]; simpl; [discriminate|].
    destruct (ascii_dec c c') as [->|]; [|intros H; discriminate H].
    intros H. destruct (IH _ H) as [b ->]. by exists b.
Qed.

Lemma str_contains_unfold (n h : string) :
  CsvLog.str_contains n h
  = String.prefix n h
    || match h with
       | EmptyString => false
       | String _ rest => CsvLog.str_contains n rest
       end.
Proof. by destruct h. Qed.

Lemma str_contains_app (n a b : string) :
  CsvLog.str_contains n (a +:+ n +:+ b) = true.
Proof.
  induction a as [|c a IH].
  - change ("" +:+ n +:+ b) with (n +:+ b).
    rewrite str_contains_unfold, prefix_app. reflexivity.
  - change (String c a +:+ n +:+ b) with (String c (a +:+ n +:+ b)).
    simpl. rewrite IH. apply orb_true_r.
Qed.

Lemma str_contains_split (n h : string) :
  CsvLog.str_contains n h = true → ∃ a b, h = a +:+ n +:+ b.
Proof.
  induction h as [|c h IH]; rewrite str_contains_unfold.
  - rewrite orb_false_r. intros H. destruct (prefix_split _ _ H) as [b Hb].
    by exists "", b.
  - intros H. apply orb_true_iff in H as [H|H].
    + destruct (prefix_split _ _ H) as [b Hb]. by exists "", b.
    + destruct (IH H) as (a & b & ->). by exists (String c a), b.
Qed.

Lemma str_lower_app (a b : string) :
  CsvLog.str_lower (a +:+ b) = CsvLog.str_lower a +:+ CsvLog.str_lower b.
Proof. induction a as [|c a IH]; simpl; [done|by rewrite IH]. Qed.

Lemma str_lower_app_inv (s a b : string) :
  CsvLog.str_lower s = a +:+ b →
  ∃ s1 s2, s = s1 +:+ s2
    ∧ CsvLog.str_lower s1 = a ∧ CsvLog.str_lower s2 = b.
Proof.
  revert s. induction a as [|c a IH]; intros s; simpl.
  - intros H. by exists "", s.
  - destruct s as [|c' s]; [discriminate|]. simpl. intros [= Hc H].
    destruct (IH _ H) as (s1 & s2 & -> & H1 & H2).
    exists (String c' s1), s2. simpl. by rewrite Hc, H1.
Qed.

(** X21. A service UUID is taken for Eddystone exactly when it contains
    the letters f, e, a, a in a row, in either case, anywhere in its
    text: the usual UUID of the Eddystone service matches in lowercase
    and in uppercase, and so does any other UUID with these four letters
    inside. *)
Theorem eddystone_uuid_iff (uuid : string) :
  CsvLog.is_eddystone_uuid uuid = true
  ↔ ∃ s1 m s2, uuid = s1 +:+ m +:+ s2 ∧ CsvLog.str_lower m = "feaa".
Proof.
  unfold CsvLog.is_eddystone_uuid. split.
  - intros H. apply str_contains_split in H as (a & b & H).
    apply str_lower_app_inv in H as (s1 & s' & -> & H1 & H).
    apply str_lower_app_inv in H as (m & s2 & -> & Hm & H2).
    by exists s1, m, s2.
  - intros (s1 & m & s2 & -> & Hm).
    rewrite !str_lower_app, Hm. apply str_contains_app.
Qed.

Lemma eddystone_uuid_iff_witness :
  CsvLog.is_eddystone_uuid "0000FEAA-0000-1000-8000-00805F9B34FB" = true
  ∧ CsvLog.is_eddystone_uuid "12feaa34-0000-1000-8000-00805f9b34fb" = true.
Proof.
  split.
  - apply (proj2 (eddystone_uuid_iff _)).
    by exists "0000", "FEAA", "-0000-1000-8000-00805F9B34FB".
  - apply (proj2 (eddystone_uuid_iff _)).
    by exists "12", "feaa", "34-0000-1000-8000-00805f9b34fb".
Defined.
